(** * ResearchForm: validation, submission and view of the lead-capture form

    Shallow embedding of the two copies of the [ResearchForm] React
    component:

    - [src/components/landing/ResearchForm.tsx]: the endpoint is a form
      field ([submissionUrl]) the visitor may edit ([UserEndpoint]);
    - the second copy: the endpoint is a component prop and the payload
      names the phone number [contact] ([FixedEndpoint]).

    JavaScript strings are modelled as Rocq strings whose characters stand
    for the code units 0..255; objects used as records of strings
    ([FormValues], the resolver's [errors]) are finite maps from property
    name to string, an absent key being [undefined].

    The component calls into three libraries whose behaviour on the calls
    made here is written out below: zod 3 (string checks, [optional],
    [or], [literal], object parsing), [@hookform/resolvers/zod] (the
    conversion of issues to one message per field) and react-hook-form
    ([handleSubmit], [reset]).  The two string formats zod delegates to a
    regular expression and to the platform's URL parser are parameters
    ([StringFormats]). *)

From Stdlib Require Import ZArith Ascii String List Bool Lia.
From stdpp Require Import base gmap strings list fin_maps.

Set Warnings "-register-all".
Local Open Scope string_scope.
Local Open Scope list_scope.
Local Open Scope stdpp_scope.

(** ** ECMAScript strings *)

Module JsString.

(** WhiteSpace and LineTerminator code units below 256: TAB, LF, VT, FF,
    CR, SP and NBSP. *)
Definition is_white_space (c : ascii) : bool :=
  let n := nat_of_ascii c in
  ((n =? 9) || (n =? 10) || (n =? 11) || (n =? 12) || (n =? 13)
   || (n =? 32) || (n =? 160))%nat.

(** [String.prototype.trimStart] *)
Fixpoint trimStart (s : string) : string :=
  match s with
  | EmptyString => EmptyString
  | String c rest => if is_white_space c then trimStart rest else s
  end.

(** [String.prototype.trimEnd] *)
Fixpoint trimEnd (s : string) : string :=
  match s with
  | EmptyString => EmptyString
  | String c rest =>
      match trimEnd rest with
      | EmptyString => if is_white_space c then EmptyString else String c EmptyString
      | kept => String c kept
      end
  end.

(** [String.prototype.trim] *)
Definition trim (s : string) : string := trimEnd (trimStart s).

(** The quotation mark, code unit 34. *)
Definition dquote : string := String "034"%char EmptyString.

End JsString.

Import JsString.

(** ** zod 3: the schema combinators the form uses *)

(** The two format checks zod does not spell out as string operations:
    [emailRegex.test(data)] and "[new URL(data)] does not throw". *)
Class StringFormats := {
  is_email : string -> bool;
  is_url : string -> bool;
}.

(** A check of a [ZodString], in the order the builder calls appended
    them. *)
Inductive ZodStringCheck :=
| CheckTrim
| CheckMin (value : nat) (message : string)
| CheckMax (value : nat) (message : string)
| CheckEmail (message : string)
| CheckUrl (message : string).

Inductive ZodType :=
| ZodString (checks : list ZodStringCheck)
| ZodLiteral (value : string)
| ZodOptional (innerType : ZodType)
| ZodUnion (options : list ZodType).

(** A [ZodIssue]; [unionErrors] is present on [invalid_union] issues
    only. *)
Inductive ZodIssue :=
| Issue (code : string) (message : string)
        (unionErrors : option (list (list ZodIssue))).

Definition issue_message (i : ZodIssue) : string :=
  match i with Issue _ m _ => m end.

Definition issue_unionErrors (i : ZodIssue) : option (list (list ZodIssue)) :=
  match i with Issue _ _ u => u end.

(** What [_parse] returns, with the issues it added to the context:
    status [valid], [dirty] (a value and issues) or [aborted]. *)
Inductive ParseReturn :=
| OK (value : option string)
| DIRTY (value : option string) (issues : list ZodIssue)
| INVALID (issues : list ZodIssue).

Definition issues_of (r : ParseReturn) : list ZodIssue :=
  match r with
  | OK _ => []
  | DIRTY _ issues => issues
  | INVALID issues => issues
  end.

Definition parsed_value (r : ParseReturn) : option string :=
  match r with
  | OK value => value
  | DIRTY value _ => value
  | INVALID _ => None
  end.

Section Zod.

Context `{StringFormats}.

(** One iteration of the loop over [this._def.checks] in
    [ZodString._parse]: [data] is [input.data], which [trim]
    overwrites; a failed check adds an issue and goes on. *)
Definition run_check (check : ZodStringCheck) (st : string * list ZodIssue)
  : string * list ZodIssue :=
  let '(data, issues) := st in
  match check with
  | CheckTrim => (trim data, issues)
  | CheckMin value message =>
      if (String.length data <? value)%nat
      then (data, issues ++ [Issue "too_small" message None])
      else st
  | CheckMax value message =>
      if (value <? String.length data)%nat
      then (data, issues ++ [Issue "too_big" message None])
      else st
  | CheckEmail message =>
      if is_email data then st
      else (data, issues ++ [Issue "invalid_string" message None])
  | CheckUrl message =>
      if is_url data then st
      else (data, issues ++ [Issue "invalid_string" message None])
  end.

Definition run_checks (checks : list ZodStringCheck) (data : string)
  : string * list ZodIssue :=
  fold_left (fun st check => run_check check st) checks (data, []).

(** The loop of [ZodUnion._parse] over the options, given how one
    option parses: the first valid result is returned; otherwise the
    first dirty one with its issues; otherwise one [invalid_union]
    issue holding the issues of every option. *)
Fixpoint union_loop (results : list ParseReturn)
         (dirty : option ParseReturn) (issues : list (list ZodIssue))
  : ParseReturn :=
  match results with
  | [] =>
      match dirty with
      | Some d => d
      | None => INVALID [Issue "invalid_union" "Invalid input" (Some issues)]
      end
  | r :: rest =>
      match r with
      | OK _ => r
      | DIRTY _ i =>
          union_loop rest (match dirty with None => Some r | Some _ => dirty end)
                     (match i with [] => issues | _ => issues ++ [i] end)
      | INVALID i =>
          union_loop rest dirty (match i with [] => issues | _ => issues ++ [i] end)
      end
  end.

(** [schema._parse(input)] on an input that is a string or
    [undefined]. *)
Fixpoint parse (schema : ZodType) (input : option string) : ParseReturn :=
  match schema with
  | ZodString checks =>
      match input with
      | None => INVALID [Issue "invalid_type" "Required" None]
      | Some data =>
          match run_checks checks data with
          | (out, []) => OK (Some out)
          | (out, issues) => DIRTY (Some out) issues
          end
      end
  | ZodLiteral value =>
      match input with
      | Some data =>
          if String.eqb data value then OK input
          else INVALID [Issue "invalid_literal"
                          ("Invalid literal value, expected " +:+ dquote +:+ value +:+ dquote)
                          None]
      | None =>
          INVALID [Issue "invalid_literal"
                     ("Invalid literal value, expected " +:+ dquote +:+ value +:+ dquote)
                     None]
      end
  | ZodOptional innerType =>
      match input with
      | None => OK None
      | Some _ => parse innerType input
      end
  | ZodUnion options =>
      union_loop (map (fun option => parse option input) options) None []
  end.

End Zod.

(** A [ZodObject] is its shape: the keys in declaration order. *)
Definition ZodObject := list (string * ZodType).

(** The result of [safeParse] on an object: the parsed data, or the
    issues, each with its path (the key of the field it came from). *)
Inductive SafeParseReturn :=
| Success (data : gmap string string)
| Failure (issues : list (string * ZodIssue)).

(** The message [parseErrorSchema] stores for an issue: for a union issue
    that of [unionErrors[0].errors[0]], else the issue's own.  (Where
    JavaScript would fail on an empty [unionErrors], which zod never
    builds, the issue's own message is kept.) *)
Definition field_message (error : ZodIssue) : string :=
  match issue_unionErrors error with
  | Some ((first :: _) :: _) => issue_message first
  | _ => issue_message error
  end.

Section ZodObjects.

Context `{StringFormats}.

(** [ZodObject._parse]: every key of the shape is parsed from
    [data[key]], the issues are collected in shape order, and the
    output object receives the keys whose parsed value is not
    [undefined].  (When a key aborts zod returns no object at all; the
    issues are then not empty, and [safeParse] below does not look at
    the object.) *)
Definition parse_key (data : gmap string string)
           (acc : list (string * ZodIssue) * gmap string string)
           (entry : string * ZodType)
  : list (string * ZodIssue) * gmap string string :=
  let r := parse entry.2 (data !! entry.1) in
  (acc.1 ++ map (pair entry.1) (issues_of r),
   match parsed_value r with
   | Some value => <[entry.1 := value]> acc.2
   | None => acc.2
   end).

Definition parse_object (shape : ZodObject) (data : gmap string string)
  : list (string * ZodIssue) * gmap string string :=
  fold_left (parse_key data) shape ([], ∅).

Definition safeParse (shape : ZodObject) (data : gmap string string)
  : SafeParseReturn :=
  match parse_object shape data with
  | ([], out) => Success out
  | (issues, _) => Failure issues
  end.

(** The issues one entry of the shape contributes, with their path. *)
Definition field_issues (data : gmap string string) (entry : string * ZodType)
  : list (string * ZodIssue) :=
  map (pair entry.1) (issues_of (parse entry.2 (data !! entry.1))).

(** The error the resolver keeps for a field: its first issue. *)
Definition field_error (schema : ZodType) (input : option string) : option string :=
  field_message <$> head (issues_of (parse schema input)).

(** The first schema declared for a key. *)
Fixpoint assoc (key : string) (shape : ZodObject) : option ZodType :=
  match shape with
  | [] => None
  | (k, schema) :: rest => if decide (k = key) then Some schema else assoc key rest
  end.

(** The message of the first issue at a path. *)
Fixpoint first_at (key : string) (issues : list (string * ZodIssue)) : option string :=
  match issues with
  | [] => None
  | (path, issue) :: rest =>
      if decide (path = key) then Some (field_message issue) else first_at key rest
  end.

End ZodObjects.

(** ** @hookform/resolvers/zod *)

(** [parseErrorSchema(zodErrors, false)]: the first issue of each path
    gives the field's error.  The nested issues of a union, which the
    resolver queues behind the others, carry the path of the union issue,
    whose entry is set by then, and are left out. *)
Definition parseErrorSchema (zodErrors : list (string * ZodIssue))
  : gmap string string :=
  fold_left
    (fun (errors : gmap string string) (error : string * ZodIssue) =>
       match errors !! error.1 with
       | Some _ => errors
       | None => <[error.1 := field_message error.2]> errors
       end)
    zodErrors ∅.

(** What the resolver hands to react-hook-form. *)
Record ResolverResult := {
  values : gmap string string;
  errors : gmap string string;
}.

Definition zodResolver `{StringFormats} (schema : ZodObject)
           (formValues : gmap string string) : ResolverResult :=
  match safeParse schema formValues with
  | Success data => {| values := data; errors := ∅ |}
  | Failure issues => {| values := ∅; errors := parseErrorSchema issues |}
  end.

(** ** The component: schema and default values *)

Inductive Variant :=
| UserEndpoint    (* src/components/landing/ResearchForm.tsx *)
| FixedEndpoint.  (* the copy whose endpoint is a prop *)

Definition placeholderUrl : string := "https://jsonplaceholder.typicode.com/posts".

(** A text field, [z.string().trim().min(1, ..).max(hi, ..)]. *)
Definition text (required too_long : string) (hi : nat) : ZodType :=
  ZodString [CheckTrim; CheckMin 1 required; CheckMax hi too_long].

(** The email field, [z.string().trim().email(..).max(255, ..)]. *)
Definition email_schema : ZodType :=
  ZodString [CheckTrim; CheckEmail "Invalid email address";
             CheckMax 255 "Email must be less than 255 characters"].

(** The endpoint field,
    [z.string().url(..).optional().or(z.literal(''))]. *)
Definition url_schema : ZodType :=
  ZodUnion [ZodOptional (ZodString [CheckUrl "Please enter a valid URL"]);
            ZodLiteral EmptyString].

Definition topic_required (v : Variant) : string :=
  match v with
  | UserEndpoint => "Research topic is required"
  | FixedEndpoint => "Research area is required"
  end.

Definition topic_too_long (v : Variant) : string :=
  match v with
  | UserEndpoint => "Research topic must be less than 500 characters"
  | FixedEndpoint => "Research area must be less than 500 characters"
  end.

Definition researchFormSchema (v : Variant) : ZodObject :=
  [ ("name", text "Name is required" "Name must be less than 100 characters" 100);
    ("phone", text "Phone number is required"
                   "Phone number must be less than 20 characters" 20);
    ("email", email_schema);
    ("researchTopic", text (topic_required v) (topic_too_long v) 500) ]
  ++ match v with
     | UserEndpoint => [ ("submissionUrl", url_schema) ]
     | FixedEndpoint => []
     end.

Definition defaultValues (v : Variant) : gmap string string :=
  match v with
  | UserEndpoint =>
      {[ "name" := EmptyString;
         "phone" := EmptyString;
         "email" := EmptyString;
         "researchTopic" := EmptyString;
         "submissionUrl" := placeholderUrl ]}
  | FixedEndpoint =>
      {[ "name" := EmptyString;
         "phone" := EmptyString;
         "email" := EmptyString;
         "researchTopic" := EmptyString ]}
  end.

(** The spec's [validate(values, schema)]: the [errors] object the
    resolver computes from the form values. *)
Definition validate `{StringFormats} (v : Variant) (formValues : gmap string string)
  : gmap string string :=
  errors (zodResolver (researchFormSchema v) formValues).

(** ** A concrete [StringFormats]

    zod 3.22's email pattern (case-insensitive): the text does not start
    with a dot and has no two dots in a row; a local part of letters,
    digits and [_ ' + - .] ending in a letter, a digit or one of [_ + -];
    [@]; one or more dot-terminated labels, each a letter or digit
    followed by letters, digits and [-]; two or more letters;
    and the first steps of the URL parser behind [new URL(data)]: the
    input, stripped of leading and trailing C0 controls and spaces, must
    start with a scheme and, for http(s), name a host.  The general
    theorems below hold for every [StringFormats]; this instance serves
    to run the form on concrete values. *)
Module Zod3.

Definition code (c : ascii) : nat := nat_of_ascii c.

Definition is_digit (c : ascii) : bool := ((48 <=? code c) && (code c <=? 57))%nat.
Definition is_alpha (c : ascii) : bool :=
  (((65 <=? code c) && (code c <=? 90)) || ((97 <=? code c) && (code c <=? 122)))%nat.
Definition is_alnum (c : ascii) : bool := is_alpha c || is_digit c.
Definition is_char (k : nat) (c : ascii) : bool := (code c =? k)%nat.

Fixpoint all (p : ascii -> bool) (s : string) : bool :=
  match s with
  | EmptyString => true
  | String c rest => p c && all p rest
  end.

Fixpoint last_char (s : string) : option ascii :=
  match s with
  | EmptyString => None
  | String c EmptyString => Some c
  | String _ rest => last_char rest
  end.

(** The pieces of [s] between occurrences of the code unit [k]. *)
Fixpoint split_on (k : nat) (s : string) : list string :=
  match s with
  | EmptyString => [EmptyString]
  | String c rest =>
      match split_on k rest with
      | piece :: pieces =>
          if is_char k c then EmptyString :: piece :: pieces
          else String c piece :: pieces
      | [] => [String c EmptyString]
      end
  end.

Fixpoint has_double_dot (s : string) : bool :=
  match s with
  | String a ((String b _) as rest) => (is_char 46 a && is_char 46 b) || has_double_dot rest
  | _ => false
  end.

(** [[A-Z0-9_'+\-\.]] and [[A-Z0-9_+-]], case-insensitive *)
Definition local_char (c : ascii) : bool :=
  is_alnum c || is_char 95 c || is_char 39 c || is_char 43 c || is_char 45 c || is_char 46 c.
Definition local_last (c : ascii) : bool :=
  is_alnum c || is_char 95 c || is_char 43 c || is_char 45 c.

(** [[A-Z0-9][A-Z0-9\-]*] *)
Definition domain_label (s : string) : bool :=
  match s with
  | EmptyString => false
  | String c rest => is_alnum c && all (fun d => is_alnum d || is_char 45 d) rest
  end.

(** [([A-Z0-9][A-Z0-9\-]*\.)+[A-Z]{2,}] *)
Definition domain (s : string) : bool :=
  match rev (split_on 46 s) with
  | tld :: ((_ :: _) as labels) =>
      all is_alpha tld && (2 <=? String.length tld)%nat && forallb domain_label labels
  | _ => false
  end.

Definition emailRegex_test (s : string) : bool :=
  match split_on 64 s with
  | [loc; dom] =>
      negb (match s with String c _ => is_char 46 c | EmptyString => false end)
      && negb (has_double_dot s)
      && all local_char loc
      && match last_char loc with Some c => local_last c | None => false end
      && domain dom
  | _ => false
  end.

Definition c0_or_space (c : ascii) : bool := (code c <=? 32)%nat.

Fixpoint strip_start (s : string) : string :=
  match s with
  | String c rest => if c0_or_space c then strip_start rest else s
  | EmptyString => EmptyString
  end.

Definition strip (s : string) : string :=
  String.rev (strip_start (String.rev (strip_start s))).

Definition to_lower (c : ascii) : ascii :=
  if ((65 <=? code c) && (code c <=? 90))%nat then ascii_of_nat (code c + 32) else c.

Fixpoint lower (s : string) : string :=
  match s with
  | EmptyString => EmptyString
  | String c rest => String (to_lower c) (lower rest)
  end.

Fixpoint drop_slashes (s : string) : string :=
  match s with
  | String c rest => if is_char 47 c || is_char 92 c then drop_slashes rest else s
  | EmptyString => EmptyString
  end.

Definition scheme (s : string) : bool :=
  match s with
  | EmptyString => false
  | String c rest =>
      is_alpha c
      && all (fun d => is_alnum d || is_char 43 d || is_char 45 d || is_char 46 d) rest
  end.

Definition url_parses (s : string) : bool :=
  match split_on 58 (strip s) with
  | sch :: after :: more =>
      scheme sch
      && (if String.eqb (lower sch) "http" || String.eqb (lower sch) "https"
          then negb (String.eqb (drop_slashes after) EmptyString)
          else true)
  | _ => false
  end.

Definition formats : StringFormats :=
  {| is_email := emailRegex_test; is_url := url_parses |}.

End Zod3.

(** Scenario values of the spec, in both copies of the form. *)
Definition scenario_values : gmap string string :=
  {[ "name" := "Jane Doe";
     "phone" := "555-1234";
     "email" := "jane@x.edu";
     "researchTopic" := "AI ethics" ]}.


(** ** ECMAScript numbers, dates and JSON text *)

Module Js.

Definition digit_char (d : Z) : ascii := ascii_of_nat (48 + Z.to_nat d).

Fixpoint digits_of (fuel : nat) (n : Z) (acc : string) : string :=
  match fuel with
  | O => acc
  | S fuel' =>
      let acc' := String (digit_char (n mod 10)) acc in
      if (n <? 10)%Z then acc' else digits_of fuel' (n / 10) acc'
  end.

(** [Number.prototype.toString] on an integer *)
Definition Number_toString (n : Z) : string :=
  if (n <? 0)%Z
  then "-" +:+ digits_of (S (Z.to_nat (Z.log2 (- n)))) (- n) EmptyString
  else digits_of (S (Z.to_nat (Z.log2 n))) n EmptyString.

Fixpoint zeros (k : nat) : string :=
  match k with
  | O => EmptyString
  | S k' => String "0" (zeros k')
  end.

(** [ToZeroPaddedDecimalString(n, minLength)], for [n >= 0] *)
Definition ToZeroPaddedDecimalString (n : Z) (minLength : nat) : string :=
  let s := Number_toString n in
  zeros (minLength - String.length s) +:+ s.

Definition msPerDay : Z := 86400000.

(** Year, month (1..12) and day of the month of a day number counted
    from 1970-01-01, in the proleptic Gregorian calendar. *)
Definition civil_from_days (day : Z) : Z * Z * Z :=
  let z := (day + 719468)%Z in
  let era := (z / 146097)%Z in
  let doe := (z mod 146097)%Z in
  let yoe := ((doe - doe / 1460 + doe / 36524 - doe / 146096) / 365)%Z in
  let doy := (doe - (365 * yoe + yoe / 4 - yoe / 100))%Z in
  let mp := ((5 * doy + 2) / 153)%Z in
  let d := (doy - (153 * mp + 2) / 5 + 1)%Z in
  let m := (if (mp <? 10)%Z then mp + 3 else mp - 9)%Z in
  let y := (yoe + era * 400)%Z in
  ((if (m <=? 2)%Z then y + 1 else y)%Z, m, d).

Definition year_string (y : Z) : string :=
  if ((0 <=? y) && (y <=? 9999))%Z then ToZeroPaddedDecimalString y 4
  else if (y <? 0)%Z then "-" +:+ ToZeroPaddedDecimalString (- y) 6
       else "+" +:+ ToZeroPaddedDecimalString y 6.

(** [Date.prototype.toISOString] of the time value [tv] (milliseconds
    since the epoch, UTC). *)
Definition toISOString (tv : Z) : string :=
  let '(y, m, d) := civil_from_days (tv / msPerDay) in
  let t := (tv mod msPerDay)%Z in
  year_string y
  +:+ "-" +:+ ToZeroPaddedDecimalString m 2
  +:+ "-" +:+ ToZeroPaddedDecimalString d 2
  +:+ "T" +:+ ToZeroPaddedDecimalString (t / 3600000) 2
  +:+ ":" +:+ ToZeroPaddedDecimalString (t / 60000 mod 60) 2
  +:+ ":" +:+ ToZeroPaddedDecimalString (t / 1000 mod 60) 2
  +:+ "." +:+ ToZeroPaddedDecimalString (t mod 1000) 3
  +:+ "Z".

Definition hex_char (d : nat) : ascii :=
  if (d <? 10)%nat then ascii_of_nat (48 + d) else ascii_of_nat (87 + d).

(** One code unit inside [QuoteJSONString]. *)
Definition quote_char (c : ascii) : string :=
  let n := nat_of_ascii c in
  if (n =? 8)%nat then "\b"
  else if (n =? 9)%nat then "\t"
  else if (n =? 10)%nat then "\n"
  else if (n =? 12)%nat then "\f"
  else if (n =? 13)%nat then "\r"
  else if (n =? 34)%nat then "\" +:+ dquote
  else if (n =? 92)%nat then "\\"
  else if (n <? 32)%nat
       then "\u00" +:+ String (hex_char (n / 16)) (String (hex_char (n mod 16)) EmptyString)
       else String c EmptyString.

Fixpoint quote_chars (s : string) : string :=
  match s with
  | EmptyString => EmptyString
  | String c rest => quote_char c +:+ quote_chars rest
  end.

Definition QuoteJSONString (s : string) : string :=
  dquote +:+ quote_chars s +:+ dquote.

(** The members [JSON.stringify] writes for an object whose property
    values are strings or [undefined]: a property holding [undefined]
    is skipped. *)
Fixpoint members (props : list (string * option string)) : list string :=
  match props with
  | [] => []
  | (key, Some value) :: rest =>
      (QuoteJSONString key +:+ ":" +:+ QuoteJSONString value) :: members rest
  | (_, None) :: rest => members rest
  end.

Fixpoint join (sep : string) (parts : list string) : string :=
  match parts with
  | [] => EmptyString
  | [part] => part
  | part :: rest => part +:+ sep +:+ join sep rest
  end.

Definition JSON_stringify (props : list (string * option string)) : string :=
  "{" +:+ join "," (members props) +:+ "}".

End Js.


(** ** The component's state and effects *)

(** The argument of [toast(...)]. *)
Record Toast := {
  title : string;
  description : string;
  variant : option string;
}.

(** A call [fetch(url, { method, headers, body })]. *)
Record Request := {
  url : string;
  method : string;
  headers : list (string * string);
  body : string;
}.

(** How the promise returned by [fetch] settles: with a response of
    some status, or rejected (network failure, malformed URL). *)
Inductive FetchReply :=
| Resolved (status : Z)
| Rejected (reason : string).

(** [response.ok] *)
Definition ok (status : Z) : bool := ((200 <=? status) && (status <=? 299))%Z.

(** [ResearchFormProps]; [submissionUrl] is a prop of the
    [FixedEndpoint] copy only. *)
Record ResearchFormProps := {
  show : option bool;
  submissionUrl : option string;
}.

(** The two [useState] cells, the values and errors held by [useForm],
    and what the component has sent to the outside so far: toasts and
    [fetch] calls, oldest first.  ([console.log] output is not kept.) *)
Record FormState := {
  isSubmitting : bool;
  isSubmitted : bool;
  fieldValues : gmap string string;
  fieldErrors : gmap string string;
  toasts : list Toast;
  requests : list Request;
}.

Definition initialState (v : Variant) : FormState :=
  {| isSubmitting := false;
     isSubmitted := false;
     fieldValues := defaultValues v;
     fieldErrors := ∅;
     toasts := [];
     requests := [] |}.

(** A statement either completes normally or throws. *)
Inductive Completion (A : Type) :=
| Normal (a : A)
| Throw (error : string).
Arguments Normal {A} a.
Arguments Throw {A} error.

Definition Action (A : Type) : Type := FormState -> Completion A * FormState.

#[global] Instance Action_ret : MRet Action :=
  fun A a st => (Normal a, st).

#[global] Instance Action_bind : MBind Action :=
  fun A B k m st =>
    match m st with
    | (Normal a, st') => k a st'
    | (Throw e, st') => (Throw e, st')
    end.

Definition throw {A} (error : string) : Action A :=
  fun st => (Throw error, st).

(** [try { body } catch (error) { handler } finally { finalizer }] *)
Definition try_catch_finally {A} (body : Action A) (handler : string -> Action A)
           (finalizer : Action unit) : Action A :=
  fun st =>
    let '(c, st1) := body st in
    let '(c', st2) :=
      match c with
      | Normal a => (Normal a, st1)
      | Throw e => handler e st1
      end in
    match finalizer st2 with
    | (Normal _, st3) => (c', st3)
    | (Throw e, st3) => (Throw e, st3)
    end.

Definition setIsSubmitting (b : bool) : Action unit :=
  fun st =>
    (Normal (),
     {| isSubmitting := b; isSubmitted := isSubmitted st;
        fieldValues := fieldValues st; fieldErrors := fieldErrors st;
        toasts := toasts st; requests := requests st |}).

Definition setIsSubmitted (b : bool) : Action unit :=
  fun st =>
    (Normal (),
     {| isSubmitting := isSubmitting st; isSubmitted := b;
        fieldValues := fieldValues st; fieldErrors := fieldErrors st;
        toasts := toasts st; requests := requests st |}).

Definition toast (t : Toast) : Action unit :=
  fun st =>
    (Normal (),
     {| isSubmitting := isSubmitting st; isSubmitted := isSubmitted st;
        fieldValues := fieldValues st; fieldErrors := fieldErrors st;
        toasts := toasts st ++ [t]; requests := requests st |}).

(** react-hook-form's [form.reset()]: back to [defaultValues], errors
    dropped. *)
Definition form_reset (v : Variant) : Action unit :=
  fun st =>
    (Normal (),
     {| isSubmitting := isSubmitting st; isSubmitted := isSubmitted st;
        fieldValues := defaultValues v; fieldErrors := ∅;
        toasts := toasts st; requests := requests st |}).

(** The call [fetch(...)]: the request leaves. *)
Definition send (r : Request) : Action unit :=
  fun st =>
    (Normal (),
     {| isSubmitting := isSubmitting st; isSubmitted := isSubmitted st;
        fieldValues := fieldValues st; fieldErrors := fieldErrors st;
        toasts := toasts st; requests := requests st ++ [r] |}).

(** [await] of the promise: the status of the response, or the
    rejection thrown. *)
Definition await (reply : FetchReply) : Action Z :=
  match reply with
  | Resolved status => mret status
  | Rejected reason => throw reason
  end.

Definition fetch (r : Request) (reply : FetchReply) : Action Z :=
  send r ;; await reply.

(** ** [onSubmit] *)

(** [const submissionUrl = ...]: in the [UserEndpoint] copy
    [data.submissionUrl || placeholder], in the other the prop with its
    default. *)
Definition endpoint (v : Variant) (props : ResearchFormProps)
           (data : gmap string string) : string :=
  match v with
  | UserEndpoint =>
      match data !! "submissionUrl" with
      | None => placeholderUrl
      | Some EmptyString => placeholderUrl
      | Some given => given
      end
  | FixedEndpoint =>
      match submissionUrl props with
      | None => placeholderUrl
      | Some given => given
      end
  end.

(** [const payload = { ... }], [now] being the time value of
    [new Date()]. *)
Definition payload (v : Variant) (data : gmap string string) (now : Z)
  : list (string * option string) :=
  [ ("name", data !! "name");
    (match v with UserEndpoint => "phone" | FixedEndpoint => "contact" end,
     data !! "phone");
    ("email", data !! "email");
    ("researchTopic", data !! "researchTopic");
    ("timestamp", Some (Js.toISOString now)) ].

Definition request (v : Variant) (props : ResearchFormProps)
           (data : gmap string string) (now : Z) : Request :=
  {| url := endpoint v props data;
     method := "POST";
     headers := [("Content-Type", "application/json")];
     body := Js.JSON_stringify (payload v data now) |}.

Definition successToast (v : Variant) : Toast :=
  match v with
  | UserEndpoint =>
      {| title := "Success!";
         description := "Your research request has been submitted successfully.";
         variant := None |}
  | FixedEndpoint =>
      {| title := "Welcome to AgenticX Lab!";
         description := "You're now part of the revolution. Check your email for next steps.";
         variant := None |}
  end.

Definition errorToast (v : Variant) : Toast :=
  match v with
  | UserEndpoint =>
      {| title := "Error";
         description := "Failed to submit your research request. Please try again.";
         variant := Some "destructive" |}
  | FixedEndpoint =>
      {| title := "Error";
         description := "Failed to join AgenticX Lab. Please try again.";
         variant := Some "destructive" |}
  end.

(** What follows [await fetch(...)] inside the [try] block. *)
Definition on_response (v : Variant) (status : Z) : Action unit :=
  if ok status then
    setIsSubmitted true ;; form_reset v ;; toast (successToast v)
  else
    throw ("HTTP error! status: " +:+ Js.Number_toString status).

(** [onSubmit(data)], run to completion against the reply the endpoint
    gives. *)
Definition onSubmit (v : Variant) (props : ResearchFormProps)
           (data : gmap string string) (now : Z) (reply : FetchReply)
  : Action unit :=
  setIsSubmitting true ;;
  try_catch_finally
    (response ← fetch (request v props data now) reply;
     on_response v response)
    (fun error => toast (errorToast v))
    (setIsSubmitting false).

(** [onSubmit] cut at its [await]: the part that runs when the handler
    is called, and the part that runs when the promise settles. *)
Definition onSubmit_begin (v : Variant) (props : ResearchFormProps)
           (data : gmap string string) (now : Z) : Action unit :=
  setIsSubmitting true ;; send (request v props data now).

Definition onSubmit_resume (v : Variant) (reply : FetchReply) : Action unit :=
  try_catch_finally
    (response ← await reply; on_response v response)
    (fun error => toast (errorToast v))
    (setIsSubmitting false).

(** ** [form.handleSubmit(onSubmit)] *)

(** react-hook-form runs the resolver on the current values; with no
    error it clears [errors] and calls the handler with the resolver's
    values, otherwise it stores the errors and the handler is not
    called. *)
Definition setErrors (errs : gmap string string) : Action unit :=
  fun st =>
    (Normal (),
     {| isSubmitting := isSubmitting st; isSubmitted := isSubmitted st;
        fieldValues := fieldValues st; fieldErrors := errs;
        toasts := toasts st; requests := requests st |}).

Definition handleSubmit `{StringFormats} (v : Variant)
           (onValid : gmap string string -> Action unit) : Action unit :=
  fun st =>
    let result := zodResolver (researchFormSchema v) (fieldValues st) in
    if decide (errors result = ∅)
    then (setErrors ∅ ;; onValid (values result)) st
    else setErrors (errors result) st.

(** ** What is on screen, and the events of a page holding the form *)

(** The three returns of the component function. *)
Inductive View :=
| Nothing                        (* [if (!show) return null] *)
| Confirmation                   (* the card shown when [isSubmitted] *)
| FormView (disabled : bool).    (* the form; inputs and button carry [disabled={isSubmitting}] *)

Definition render (props : ResearchFormProps) (st : FormState) : View :=
  if negb (default true (show props)) then Nothing
  else if isSubmitted st then Confirmation
  else FormView (isSubmitting st).

(** The spec's SubmissionState as the component holds it: two booleans,
    read in the order [render] reads them.  A failed attempt leaves no
    state of its own, only a toast. *)
Inductive SubmissionState := Idle | Submitting | Succeeded.

Definition submissionState (st : FormState) : SubmissionState :=
  if isSubmitted st then Succeeded
  else if isSubmitting st then Submitting
  else Idle.

(** The names of the inputs the form renders. *)
Definition inputs (v : Variant) : list string := map fst (researchFormSchema v).

(** The component together with the number of [fetch] promises that
    have settled; the requests beyond that number are in flight. *)
Record Page := {
  component : FormState;
  settled : nat;
}.

Inductive Event :=
| Submit (now : Z)                 (* the visitor submits the form at time [now] *)
| Change (name value : string)     (* the visitor edits an input; only the value is kept,
                                      not the re-validation react-hook-form may run *)
| SubmitAnother                    (* the button of the confirmation card *)
| Settle (reply : FetchReply).     (* the oldest promise in flight settles *)

Definition setValue (name value : string) : Action unit :=
  fun st =>
    (Normal (),
     {| isSubmitting := isSubmitting st; isSubmitted := isSubmitted st;
        fieldValues := <[name := value]> (fieldValues st);
        fieldErrors := fieldErrors st;
        toasts := toasts st; requests := requests st |}).

Definition run (a : Action unit) (p : Page) : Page :=
  {| component := (a (component p)).2; settled := settled p |}.

(** The events as the rendered page takes them.  An element the browser
    shows disabled, or does not show, receives no event: a submit
    reaches [form.handleSubmit(onSubmit)] only from the form with
    [disabled] false.  That gate is the view's; the handler has none
    (see [handleSubmit] and [onSubmit], and [dispatch_unguarded] below).
    An accepted submit is taken as one step up to the [await] of
    [fetch]: the resolver's promise is taken to settle before the next
    event. *)
Definition dispatch `{StringFormats} (v : Variant) (props : ResearchFormProps)
           (e : Event) (p : Page) : Page :=
  match e with
  | Submit now =>
      match render props (component p) with
      | FormView false =>
          run (handleSubmit v (fun data => onSubmit_begin v props data now)) p
      | _ => p
      end
  | Change name value =>
      match render props (component p) with
      | FormView false =>
          if decide (name ∈ inputs v) then run (setValue name value) p else p
      | _ => p
      end
  | SubmitAnother =>
      match render props (component p) with
      | Confirmation => run (setIsSubmitted false) p
      | _ => p
      end
  | Settle reply =>
      if decide (settled p < length (requests (component p)))
      then {| component := (onSubmit_resume v reply (component p)).2;
              settled := S (settled p) |}
      else p
  end.

Definition dispatch_all `{StringFormats} (v : Variant) (props : ResearchFormProps)
           (events : list Event) (p : Page) : Page :=
  fold_left (fun q e => dispatch v props e q) events p.

Definition initialPage (v : Variant) : Page :=
  {| component := initialState v; settled := 0 |}.

Definition from_visitor (e : Event) : bool :=
  match e with
  | Settle _ => false
  | _ => true
  end.

(** ** The schema in the spec's words

    Section 4.1 of the spec describes a field by whether it is required,
    its length bounds and its format.  The predicates below say when a
    field value meets that description; the theorems compare them with
    what the zod schema reports. *)

Module Spec.

(** The configured upper bounds. *)
Definition max_length (key : string) : nat :=
  if String.eqb key "name" then 100
  else if String.eqb key "phone" then 20
  else if String.eqb key "email" then 255
  else if String.eqb key "researchTopic" then 500
  else 0.

Definition required : list string := ["name"; "phone"; "email"; "researchTopic"].

(** A required text field: present, not empty once trimmed, within
    its bound. *)
Definition text_ok (key : string) (input : option string) : bool :=
  match input with
  | Some s =>
      ((1 <=? String.length (trim s)) && (String.length (trim s) <=? max_length key))%nat
  | None => false
  end.

(** The email field: present, its trimmed value an email address
    within the bound. *)
Definition email_ok `{StringFormats} (input : option string) : bool :=
  match input with
  | Some s => is_email (trim s) && (String.length (trim s) <=? max_length "email")%nat
  | None => false
  end.

(** The optional endpoint field: omitted, empty, or a URL. *)
Definition url_ok `{StringFormats} (input : option string) : bool :=
  match input with
  | None => true
  | Some EmptyString => true
  | Some s => is_url s
  end.

(** A field that is missing: absent, or empty once trimmed. *)
Definition blank (input : option string) : bool :=
  match input with
  | None => true
  | Some s => String.eqb (trim s) EmptyString
  end.

Definition field_ok `{StringFormats} (v : Variant) (formValues : gmap string string)
           (key : string) : bool :=
  if String.eqb key "email" then email_ok (formValues !! key)
  else if String.eqb key "submissionUrl" then
         match v with
         | UserEndpoint => url_ok (formValues !! key)
         | FixedEndpoint => true
         end
       else text_ok key (formValues !! key).

Definition all_fields : list string :=
  ["name"; "phone"; "email"; "researchTopic"; "submissionUrl"].

(** Every field meets its description. *)
Definition valid `{StringFormats} (v : Variant) (formValues : gmap string string) : bool :=
  forallb (field_ok v formValues) all_fields.

(** Every field other than [key] meets its description. *)
Definition valid_but `{StringFormats} (key : string) (v : Variant)
           (formValues : gmap string string) : bool :=
  forallb (fun k => String.eqb k key || field_ok v formValues k) all_fields.

(** Every value is the empty string. *)
Definition all_empty (formValues : gmap string string) : Prop :=
  forall key value, formValues !! key = Some value -> value = EmptyString.

(** An ISO 8601 date-time in UTC the way ECMAScript writes it:
    [YYYY-MM-DDTHH:mm:ss.sssZ], the year in four digits, or in six after
    a sign. *)
Definition digit (c : ascii) : bool :=
  ((48 <=? nat_of_ascii c) && (nat_of_ascii c <=? 57))%nat.

Fixpoint digits (s : string) : bool :=
  match s with
  | EmptyString => true
  | String c rest => digit c && digits rest
  end.

(** The number two digits write. *)
Definition two (s : string) : option nat :=
  match s with
  | String a (String b EmptyString) =>
      if digit a && digit b
      then Some (10 * (nat_of_ascii a - 48) + (nat_of_ascii b - 48))
      else None
  | _ => None
  end.

Definition in_range (lo hi : nat) (n : option nat) : bool :=
  match n with
  | Some k => ((lo <=? k) && (k <=? hi))%nat
  | None => false
  end.

(** [-MM-DDTHH:mm:ss.sssZ], what follows the year *)
Definition date_time (s : string) : bool :=
  (String.length s =? 20)%nat
  && String.eqb (substring 0 1 s) "-" && in_range 1 12 (two (substring 1 2 s))
  && String.eqb (substring 3 1 s) "-" && in_range 1 31 (two (substring 4 2 s))
  && String.eqb (substring 6 1 s) "T" && in_range 0 23 (two (substring 7 2 s))
  && String.eqb (substring 9 1 s) ":" && in_range 0 59 (two (substring 10 2 s))
  && String.eqb (substring 12 1 s) ":" && in_range 0 59 (two (substring 13 2 s))
  && String.eqb (substring 15 1 s) "." && digits (substring 16 3 s)
  && String.eqb (substring 19 1 s) "Z".

Definition iso8601_utc (s : string) : bool :=
  ((String.length s =? 24)%nat && digits (substring 0 4 s) && date_time (substring 4 20 s))
  || ((String.length s =? 27)%nat
      && (String.eqb (substring 0 1 s) "+" || String.eqb (substring 0 1 s) "-")
      && digits (substring 1 6 s) && date_time (substring 7 20 s)).

(** The time values of ECMAScript: within 100 000 000 days of the
    epoch. *)
Definition time_value (tv : Z) : Prop :=
  (-8640000000000000 <= tv <= 8640000000000000)%Z.

(** A reply that counts as failure: a status outside [200,300), or no
    response at all. *)
Definition failure (reply : FetchReply) : Prop :=
  match reply with
  | Resolved status => ~ (200 <= status < 300)%Z
  | Rejected _ => True
  end.

End Spec.

(** [f] holds on the [count] integers from [start] on. *)
Fixpoint holds_from (count : nat) (start : Z) (f : Z -> bool) : bool :=
  match count with
  | O => true
  | S count' => if f start then holds_from count' (start + 1) f else false
  end.

(** The requests whose promise has not settled yet. *)
Definition in_flight (p : Page) : nat :=
  length (requests (component p)) - settled p.

(** What ties the flag to the network on the pages [dispatch] produces,
    where the view's gate holds submits back: a request is awaited
    exactly while [isSubmitting] holds. *)
Definition flag_tracks_requests (p : Page) : Prop :=
  length (requests (component p))
  = settled p + (if isSubmitting (component p) then 1 else 0).

(** ** The spec's scenarios *)

Definition defaultProps : ResearchFormProps :=
  {| show := None; submissionUrl := None |}.

(** The visitor fills in the four fields of scenarios A and B. *)
Definition fill_in : list Event :=
  [ Change "name" "Jane Doe";
    Change "phone" "555-1234";
    Change "email" "jane@x.edu";
    Change "researchTopic" "AI ethics" ].

Definition filled_page (v : Variant) : Page :=
  @dispatch_all Zod3.formats v defaultProps fill_in (initialPage v).

(** ** Reading back the JSON text of an object of strings

    A reader for the text [JSON.stringify] writes for such an object:
    no white space between tokens, string values only. *)

Module JsonRead.

Definition is_unit (k : nat) (c : ascii) : bool := (nat_of_ascii c =? k)%nat.

Definition hex_value (c : ascii) : option nat :=
  let n := nat_of_ascii c in
  if ((48 <=? n) && (n <=? 57))%nat then Some (n - 48)
  else if ((97 <=? n) && (n <=? 102))%nat then Some (n - 87)
  else if ((65 <=? n) && (n <=? 70))%nat then Some (n - 55)
  else None.

(** The code unit a [\uXXXX] escape stands for, when it is below 256. *)
Definition unit_of_hex (a b c d : ascii) : option ascii :=
  match hex_value a, hex_value b, hex_value c, hex_value d with
  | Some 0, Some 0, Some h, Some l => Some (ascii_of_nat (16 * h + l))
  | _, _, _, _ => None
  end.

(** The code unit a two-character escape stands for. *)
Definition simple_escape (e : ascii) : option ascii :=
  let k := nat_of_ascii e in
  if (k =? 34)%nat then Some (ascii_of_nat 34)
  else if (k =? 92)%nat then Some (ascii_of_nat 92)
  else if (k =? 47)%nat then Some (ascii_of_nat 47)
  else if (k =? 98)%nat then Some (ascii_of_nat 8)
  else if (k =? 102)%nat then Some (ascii_of_nat 12)
  else if (k =? 110)%nat then Some (ascii_of_nat 10)
  else if (k =? 114)%nat then Some (ascii_of_nat 13)
  else if (k =? 116)%nat then Some (ascii_of_nat 9)
  else None.

Definition prepend (c : option ascii) (r : option (string * string))
  : option (string * string) :=
  match c, r with
  | Some u, Some (text, after) => Some (String u text, after)
  | _, _ => None
  end.

(** What follows the opening quotation mark of a string literal: the
    text it stands for, and what comes after the closing mark. *)
Fixpoint string_body (s : string) : option (string * string) :=
  match s with
  | EmptyString => None
  | String c rest =>
      if is_unit 34 c then Some (EmptyString, rest)
      else if is_unit 92 c then
             match rest with
             | String e rest' =>
                 if is_unit 117 e then
                   match rest' with
                   | String h1 (String h2 (String h3 (String h4 rest''))) =>
                       prepend (unit_of_hex h1 h2 h3 h4) (string_body rest'')
                   | _ => None
                   end
                 else prepend (simple_escape e) (string_body rest')
             | EmptyString => None
             end
           else if (nat_of_ascii c <? 32)%nat then None
                else prepend (Some c) (string_body rest)
  end.

Definition string_literal (s : string) : option (string * string) :=
  match s with
  | String q rest => if is_unit 34 q then string_body rest else None
  | EmptyString => None
  end.

(** The members from the first key on, up to the closing brace. *)
Fixpoint members_from (fuel : nat) (s : string)
  : option (list (string * string) * string) :=
  match fuel with
  | O => None
  | S fuel' =>
      match string_literal s with
      | Some (key, String colon after) =>
          if is_unit 58 colon then
            match string_literal after with
            | Some (value, String sep rest) =>
                if is_unit 125 sep then Some ([(key, value)], rest)
                else if is_unit 44 sep then
                       match members_from fuel' rest with
                       | Some (more, tail) => Some ((key, value) :: more, tail)
                       | None => None
                       end
                     else None
            | _ => None
            end
          else None
      | _ => None
      end
  end.

Definition JSON_parse (s : string) : option (list (string * string)) :=
  match s with
  | String open rest =>
      if is_unit 123 open then
        if String.eqb rest "}" then Some []
        else match members_from (String.length rest) rest with
             | Some (found, EmptyString) => Some found
             | _ => None
             end
      else None
  | EmptyString => None
  end.

(** The properties of an object that hold a string. *)
Fixpoint defined (props : list (string * option string)) : list (string * string) :=
  match props with
  | [] => []
  | (key, Some value) :: rest => (key, value) :: defined rest
  | (_, None) :: rest => defined rest
  end.

End JsonRead.

(** ** Text with white space around it *)

(** The last code unit of a string. *)
Fixpoint last_unit (s : string) : option ascii :=
  match s with
  | EmptyString => None
  | String c EmptyString => Some c
  | String _ rest => last_unit rest
  end.

(** A string that starts or ends with white space. *)
Definition padded (s : string) : bool :=
  match s with
  | EmptyString => false
  | String c _ =>
      is_white_space c
      || match last_unit s with
         | Some d => is_white_space d
         | None => false
         end
  end.

(** One of the two toasts of the component. *)
Definition form_toast (v : Variant) (t : Toast) : Prop :=
  t = successToast v \/ t = errorToast v.

(** ** The handlers without the view's gate *)

(** The same events when nothing holds them back: each handler runs
    whatever is on screen, as when a submit event is dispatched on the
    form element itself or arrives before the disabled controls are
    rendered.  Two submits in a row then both send. *)
Definition dispatch_unguarded `{StringFormats} (v : Variant) (props : ResearchFormProps)
           (e : Event) (p : Page) : Page :=
  match e with
  | Submit now => run (handleSubmit v (fun data => onSubmit_begin v props data now)) p
  | Change name value => run (setValue name value) p
  | SubmitAnother => run (setIsSubmitted false) p
  | Settle reply =>
      if decide (settled p < length (requests (component p)))
      then {| component := (onSubmit_resume v reply (component p)).2;
              settled := S (settled p) |}
      else p
  end.

Definition dispatch_all_unguarded `{StringFormats} (v : Variant)
           (props : ResearchFormProps) (events : list Event) (p : Page) : Page :=
  fold_left (fun q e => dispatch_unguarded v props e q) events p.

(** What every handler keeps, gate or no gate: one toast of the
    component for each settled request, and no more settled requests
    than requests sent. *)
Definition toasts_match_settled (v : Variant) (p : Page) : Prop :=
  length (toasts (component p)) = settled p
  /\ settled p <= length (requests (component p))
  /\ Forall (form_toast v) (toasts (component p)).

(** ** The pages the events produce *)

(** The pages reached from the initial page by some sequence of events. *)
Definition reachable `{StringFormats} (v : Variant) (props : ResearchFormProps)
           (p : Page) : Prop :=
  exists events, p = dispatch_all v props events (initialPage v).

(** A request as [onSubmit] builds it from data that meet the schema. *)
Definition sent_from_form `{StringFormats} (v : Variant) (props : ResearchFormProps)
           (r : Request) : Prop :=
  exists data now, r = request v props data now /\ Spec.valid v data = true.

(** What every event keeps: the confirmation card is up only over a
    reset form with no request awaited; each settled request has left
    one toast; every request was built from valid data; the flag
    tracks the request in flight. *)
Definition page_invariant `{StringFormats} (v : Variant) (props : ResearchFormProps)
           (p : Page) : Prop :=
  (isSubmitted (component p) = true ->
   isSubmitting (component p) = false
   /\ fieldValues (component p) = defaultValues v
   /\ fieldErrors (component p) = ∅)
  /\ length (toasts (component p)) = settled p
  /\ Forall (form_toast v) (toasts (component p))
  /\ Forall (sent_from_form v props) (requests (component p))
  /\ flag_tracks_requests p.

(** * Properties *)

(** ** The model on the spec's sample values *)

Example zod3_email_samples :
  map Zod3.emailRegex_test ["jane@x.edu"; "not-an-email"; EmptyString; "a..b@x.edu"; "a@b"; "A.b+c@mail.Example.org"]
  = [true; false; false; false; false; true].
Proof. reflexivity. Qed.

Example zod3_url_samples :
  map Zod3.url_parses [placeholderUrl; "  "; EmptyString; "example.com"; "http://"; " mailto:a@b "]
  = [true; false; false; false; false; true].
Proof. reflexivity. Qed.

Example scenario_A_validates :
  @validate Zod3.formats FixedEndpoint scenario_values = ∅
  /\ @validate Zod3.formats UserEndpoint (<["submissionUrl" := placeholderUrl]> scenario_values) = ∅.
Proof. split; vm_compute; reflexivity. Qed.

Example scenario_D_email_only :
  @validate Zod3.formats FixedEndpoint (<["email" := "not-an-email"]> scenario_values)
  = {[ "email" := "Invalid email address" ]}.
Proof. vm_compute. reflexivity. Qed.

Example toISOString_samples :
  map Js.toISOString [0; 1709210096789; -1; 253402300800000; -62198755200000]%Z
  = ["1970-01-01T00:00:00.000Z"; "2024-02-29T12:34:56.789Z";
     "1969-12-31T23:59:59.999Z"; "+010000-01-01T00:00:00.000Z";
     "-000001-01-01T00:00:00.000Z"].
Proof. vm_compute. reflexivity. Qed.

(** ** Trimming *)

Lemma trimEnd_cons (c : ascii) (rest : string) :
  trimEnd (String c rest)
  = match trimEnd rest with
    | EmptyString => if is_white_space c then EmptyString else String c EmptyString
    | kept => String c kept
    end.
Proof. reflexivity. Qed.

Lemma trimEnd_idem (s : string) : trimEnd (trimEnd s) = trimEnd s.
Proof.
  induction s as [|c rest IH]; [reflexivity|].
  rewrite trimEnd_cons. destruct (trimEnd rest) as [|d kept] eqn:E.
  - destruct (is_white_space c) eqn:W; [reflexivity|].
    rewrite trimEnd_cons. cbn [trimEnd]. now rewrite W.
  - rewrite trimEnd_cons, IH. reflexivity.
Qed.

Lemma trimStart_nonspace (c : ascii) (rest : string) :
  is_white_space c = false -> trimStart (String c rest) = String c rest.
Proof. intros W. cbn. now rewrite W. Qed.

Lemma trimStart_shape (s : string) :
  trimStart s = EmptyString
  \/ exists c rest, trimStart s = String c rest /\ is_white_space c = false.
Proof.
  induction s as [|c rest IH]; [now left|].
  cbn. destruct (is_white_space c) eqn:W; [exact IH|].
  right. now exists c, rest.
Qed.

Lemma trimEnd_keeps_head (c : ascii) (rest : string) :
  is_white_space c = false -> exists kept, trimEnd (String c rest) = String c kept.
Proof.
  intros W. cbn [trimEnd]. destruct (trimEnd rest) as [|d kept].
  - rewrite W. now exists EmptyString.
  - now exists (String d kept).
Qed.

Lemma trim_idem (s : string) : trim (trim s) = trim s.
Proof.
  unfold trim. destruct (trimStart_shape s) as [E | (c & rest & E & W)]; rewrite E.
  - reflexivity.
  - destruct (trimEnd_keeps_head c rest W) as [kept K].
    rewrite K, (trimStart_nonspace c kept W), <- K. apply trimEnd_idem.
Qed.

Lemma trim_empty : trim EmptyString = EmptyString.
Proof. reflexivity. Qed.

(** ** Parsing an object, field by field *)

Section ZodFacts.

Context `{StringFormats}.

Lemma parse_object_fold (shape : ZodObject) (data : gmap string string)
      (acc : list (string * ZodIssue) * gmap string string) :
  (fold_left (parse_key data) shape acc).1 = acc.1 ++ flat_map (field_issues data) shape.
Proof.
  revert acc. induction shape as [|entry rest IH]; intros acc; cbn [fold_left flat_map].
  - now rewrite app_nil_r.
  - rewrite IH. cbn [parse_key fst]. unfold field_issues. now rewrite <- app_assoc.
Qed.

Lemma parse_object_issues (shape : ZodObject) (data : gmap string string) :
  (parse_object shape data).1 = flat_map (field_issues data) shape.
Proof. unfold parse_object. now rewrite parse_object_fold. Qed.

Lemma assoc_None (key : string) (shape : ZodObject) :
  key ∉ map fst shape -> assoc key shape = None.
Proof.
  induction shape as [|[k schema] rest IH]; [reflexivity|].
  cbn. intros Hnot. destruct (decide (k = key)) as [->|Hne].
  - exfalso. apply Hnot. left.
  - apply IH. intros Hin. apply Hnot. now right.
Qed.

Lemma parse_object_out_fold (shape : ZodObject) (data : gmap string string)
      (acc : list (string * ZodIssue) * gmap string string) (key : string) :
  NoDup (map fst shape) ->
  (fold_left (parse_key data) shape acc).2 !! key
  = match assoc key shape with
    | Some schema =>
        match parsed_value (parse schema (data !! key)) with
        | Some value => Some value
        | None => acc.2 !! key
        end
    | None => acc.2 !! key
    end.
Proof.
  revert acc. induction shape as [|[k schema] rest IH]; intros acc Hnd; [reflexivity|].
  cbn [map fst] in Hnd. apply NoDup_cons in Hnd as [Hk Hrest].
  cbn [fold_left assoc]. rewrite (IH _ Hrest). cbn [parse_key fst snd].
  destruct (decide (k = key)) as [->|Hne].
  - rewrite (assoc_None _ _ Hk).
    destruct (parsed_value (parse schema (data !! key))); [apply lookup_insert_eq | reflexivity].
  - destruct (assoc key rest) as [schema'|].
    + destruct (parsed_value (parse schema' (data !! key))); [reflexivity|].
      destruct (parsed_value (parse schema (data !! k))); [now apply lookup_insert_ne | reflexivity].
    + destruct (parsed_value (parse schema (data !! k))); [now apply lookup_insert_ne | reflexivity].
Qed.

(** The object [safeParse] builds holds, under each key of the shape,
    the value that key's schema produced. *)
Lemma parse_object_out (shape : ZodObject) (data : gmap string string) (key : string) :
  NoDup (map fst shape) ->
  (parse_object shape data).2 !! key
  = schema ← assoc key shape; parsed_value (parse schema (data !! key)).
Proof.
  intros Hnd. unfold parse_object. rewrite (parse_object_out_fold _ _ _ _ Hnd).
  cbn [snd]. rewrite lookup_empty.
  destruct (assoc key shape) as [schema|]; cbn; [|reflexivity].
  now destruct (parsed_value (parse schema (data !! key))).
Qed.

Lemma parseErrorSchema_fold (issues : list (string * ZodIssue))
      (acc : gmap string string) (key : string) :
  fold_left
    (fun (errs : gmap string string) (error : string * ZodIssue) =>
       match errs !! error.1 with
       | Some _ => errs
       | None => <[error.1 := field_message error.2]> errs
       end)
    issues acc !! key
  = match acc !! key with
    | Some message => Some message
    | None => first_at key issues
    end.
Proof.
  revert acc. induction issues as [|[path issue] rest IH]; intros acc; cbn [fold_left first_at].
  - now destruct (acc !! key).
  - rewrite IH. cbn [fst snd].
    destruct (decide (path = key)) as [->|Hne].
    + destruct (acc !! key) as [m|] eqn:E; [now rewrite E|].
      now rewrite lookup_insert_eq.
    + destruct (acc !! path) as [m|] eqn:E; [reflexivity|].
      now rewrite (lookup_insert_ne _ _ _ _ Hne).
Qed.

(** The resolver's entry for a field is the message of the first issue
    on its path. *)
Lemma parseErrorSchema_lookup (issues : list (string * ZodIssue)) (key : string) :
  parseErrorSchema issues !! key = first_at key issues.
Proof. unfold parseErrorSchema. rewrite parseErrorSchema_fold. now rewrite lookup_empty. Qed.

Lemma first_at_app (key : string) (l1 l2 : list (string * ZodIssue)) :
  first_at key (l1 ++ l2)
  = match first_at key l1 with
    | Some m => Some m
    | None => first_at key l2
    end.
Proof.
  induction l1 as [|[path issue] rest IH]; [reflexivity|].
  cbn. now destruct (decide (path = key)).
Qed.

Lemma first_at_path (key path : string) (found : list ZodIssue) :
  first_at key (map (pair path) found)
  = if decide (path = key) then field_message <$> head found else None.
Proof.
  induction found as [|issue rest IH]; cbn.
  - now destruct (decide (path = key)).
  - destruct (decide (path = key)); [reflexivity | exact IH].
Qed.

Lemma first_at_absent (key : string) (shape : ZodObject) (data : gmap string string) :
  key ∉ map fst shape -> first_at key (flat_map (field_issues data) shape) = None.
Proof.
  induction shape as [|[k schema] rest IH]; [reflexivity|].
  cbn [map fst flat_map]. intros Hnot.
  rewrite first_at_app. unfold field_issues at 1. cbn [fst snd].
  rewrite first_at_path. destruct (decide (k = key)) as [->|Hne].
  - exfalso. apply Hnot. left.
  - apply IH. intros Hin. apply Hnot. now right.
Qed.

Lemma first_at_shape (key : string) (shape : ZodObject) (data : gmap string string) :
  NoDup (map fst shape) ->
  first_at key (flat_map (field_issues data) shape)
  = schema ← assoc key shape; field_error schema (data !! key).
Proof.
  induction shape as [|[k schema] rest IH]; intros Hnd; [reflexivity|].
  cbn [map fst] in Hnd. apply NoDup_cons in Hnd as [Hk Hrest].
  cbn [flat_map assoc]. rewrite first_at_app. unfold field_issues at 1. cbn [fst snd].
  rewrite first_at_path. destruct (decide (k = key)) as [->|Hne].
  - cbn. unfold field_error.
    destruct (head (issues_of (parse schema (data !! key)))); cbn; [reflexivity|].
    now apply first_at_absent.
  - now apply IH.
Qed.

End ZodFacts.

(** ** The form's schema, field by field *)

Section SchemaFacts.

Context `{StringFormats}.

Lemma schema_keys_NoDup (v : Variant) : NoDup (map fst (researchFormSchema v)).
Proof. destruct v; apply (bool_decide_unpack _); vm_compute; reflexivity. Qed.

(** [validate] is the resolver's reading of the issues of all fields. *)
Lemma validate_issues (v : Variant) (formValues : gmap string string) :
  validate v formValues
  = parseErrorSchema (flat_map (field_issues formValues) (researchFormSchema v)).
Proof.
  unfold validate, zodResolver, safeParse.
  rewrite <- parse_object_issues.
  destruct (parse_object (researchFormSchema v) formValues) as [[|issue issues] out];
    reflexivity.
Qed.

(** The entry of a field in the ValidationResult: the first issue its
    own schema raises on its own value. *)
Lemma validate_lookup (v : Variant) (formValues : gmap string string) (key : string) :
  validate v formValues !! key
  = schema ← assoc key (researchFormSchema v); field_error schema (formValues !! key).
Proof.
  rewrite validate_issues, parseErrorSchema_lookup.
  apply first_at_shape, schema_keys_NoDup.
Qed.

Lemma parse_text (required too_long : string) (hi : nat) (s : string) :
  issues_of (parse (text required too_long hi) (Some s))
  = (if (String.length (trim s) <? 1)%nat then [Issue "too_small" required None] else [])
    ++ (if (hi <? String.length (trim s))%nat then [Issue "too_big" too_long None] else [])
  /\ parsed_value (parse (text required too_long hi) (Some s)) = Some (trim s).
Proof.
  unfold text. cbn [parse]. unfold run_checks. cbn [fold_left run_check].
  destruct (String.length (trim s) <? 1)%nat; cbn [run_check app];
    destruct (hi <? String.length (trim s))%nat; split; reflexivity.
Qed.

Lemma parse_email (s : string) :
  issues_of (parse email_schema (Some s))
  = (if is_email (trim s) then [] else [Issue "invalid_string" "Invalid email address" None])
    ++ (if (255 <? String.length (trim s))%nat
        then [Issue "too_big" "Email must be less than 255 characters" None] else [])
  /\ parsed_value (parse email_schema (Some s)) = Some (trim s).
Proof.
  unfold email_schema. cbn [parse]. unfold run_checks. cbn [fold_left run_check].
  destruct (is_email (trim s)); cbn [run_check app];
    destruct (255 <? String.length (trim s))%nat; split; reflexivity.
Qed.

Lemma parse_url_absent : parse url_schema None = OK None.
Proof. reflexivity. Qed.

Lemma parse_url_empty : parse url_schema (Some EmptyString) = OK (Some EmptyString).
Proof.
  unfold url_schema. cbn [parse map]. unfold run_checks. cbn [fold_left run_check].
  now destruct (is_url EmptyString).
Qed.

(** A value that is not the empty string goes to the URL check as it
    is, untrimmed. *)
Lemma parse_url_given (s : string) :
  s <> EmptyString ->
  parse url_schema (Some s)
  = if is_url s then OK (Some s)
    else DIRTY (Some s) [Issue "invalid_string" "Please enter a valid URL" None].
Proof.
  intros Hs. unfold url_schema. cbn [parse map]. unfold run_checks.
  cbn [fold_left run_check].
  destruct (is_url s); [reflexivity|]. cbn [app union_loop].
  destruct (String.eqb_spec s EmptyString) as [E|_]; [contradiction | reflexivity].
Qed.

Lemma assoc_name (v : Variant) :
  assoc "name" (researchFormSchema v)
  = Some (text "Name is required" "Name must be less than 100 characters" 100).
Proof. now destruct v. Qed.

Lemma assoc_phone (v : Variant) :
  assoc "phone" (researchFormSchema v)
  = Some (text "Phone number is required" "Phone number must be less than 20 characters" 20).
Proof. now destruct v. Qed.

Lemma assoc_email (v : Variant) :
  assoc "email" (researchFormSchema v) = Some email_schema.
Proof. now destruct v. Qed.

Lemma assoc_researchTopic (v : Variant) :
  assoc "researchTopic" (researchFormSchema v)
  = Some (text (topic_required v) (topic_too_long v) 500).
Proof. now destruct v. Qed.

Lemma assoc_submissionUrl (v : Variant) :
  assoc "submissionUrl" (researchFormSchema v)
  = match v with UserEndpoint => Some url_schema | FixedEndpoint => None end.
Proof. now destruct v. Qed.

Lemma assoc_other (v : Variant) (key : string) :
  key <> "name" -> key <> "phone" -> key <> "email" -> key <> "researchTopic" ->
  key <> "submissionUrl" ->
  assoc key (researchFormSchema v) = None.
Proof.
  intros Hn Hp He Ht Hu. apply assoc_None. intros Hin.
  destruct v; cbn in Hin;
    repeat (apply elem_of_cons in Hin as [->|Hin]; [contradiction|]);
    now apply elem_of_nil in Hin.
Qed.

End SchemaFacts.

(** ** The ValidationResult, entry by entry *)

Section ValidateFacts.

Context `{StringFormats}.

Lemma field_error_text (required too_long : string) (hi : nat) (input : option string) :
  field_error (text required too_long hi) input
  = match input with
    | None => Some "Required"
    | Some s =>
        if (String.length (trim s) <? 1)%nat then Some required
        else if (hi <? String.length (trim s))%nat then Some too_long
             else None
    end.
Proof.
  unfold field_error. destruct input as [s|]; [|reflexivity].
  rewrite (proj1 (parse_text required too_long hi s)).
  destruct (String.length (trim s) <? 1)%nat; [reflexivity|].
  now destruct (hi <? String.length (trim s))%nat.
Qed.

Lemma field_error_email (input : option string) :
  field_error email_schema input
  = match input with
    | None => Some "Required"
    | Some s =>
        if is_email (trim s)
        then if (255 <? String.length (trim s))%nat
             then Some "Email must be less than 255 characters"
             else None
        else Some "Invalid email address"
    end.
Proof.
  unfold field_error. destruct input as [s|]; [|reflexivity].
  rewrite (proj1 (parse_email s)).
  destruct (is_email (trim s)); [|reflexivity].
  now destruct (255 <? String.length (trim s))%nat.
Qed.

Lemma field_error_url (input : option string) :
  field_error url_schema input
  = match input with
    | None => None
    | Some EmptyString => None
    | Some s => if is_url s then None else Some "Please enter a valid URL"
    end.
Proof.
  unfold field_error. destruct input as [[|c rest]|].
  - now rewrite parse_url_empty.
  - rewrite parse_url_given by discriminate.
    now destruct (is_url (String c rest)).
  - reflexivity.
Qed.

Lemma validate_name (v : Variant) (formValues : gmap string string) :
  validate v formValues !! "name"
  = field_error (text "Name is required" "Name must be less than 100 characters" 100)
                (formValues !! "name").
Proof. now rewrite validate_lookup, assoc_name. Qed.

Lemma validate_phone (v : Variant) (formValues : gmap string string) :
  validate v formValues !! "phone"
  = field_error (text "Phone number is required"
                      "Phone number must be less than 20 characters" 20)
                (formValues !! "phone").
Proof. now rewrite validate_lookup, assoc_phone. Qed.

Lemma validate_email (v : Variant) (formValues : gmap string string) :
  validate v formValues !! "email" = field_error email_schema (formValues !! "email").
Proof. now rewrite validate_lookup, assoc_email. Qed.

Lemma validate_researchTopic (v : Variant) (formValues : gmap string string) :
  validate v formValues !! "researchTopic"
  = field_error (text (topic_required v) (topic_too_long v) 500)
                (formValues !! "researchTopic").
Proof. now rewrite validate_lookup, assoc_researchTopic. Qed.

Lemma validate_submissionUrl (v : Variant) (formValues : gmap string string) :
  validate v formValues !! "submissionUrl"
  = match v with
    | UserEndpoint => field_error url_schema (formValues !! "submissionUrl")
    | FixedEndpoint => None
    end.
Proof. rewrite validate_lookup, assoc_submissionUrl. now destruct v. Qed.

Lemma validate_other (v : Variant) (formValues : gmap string string) (key : string) :
  key ∉ Spec.all_fields -> validate v formValues !! key = None.
Proof.
  intros Hnot. rewrite validate_lookup, assoc_other; [reflexivity|..];
    intros ->; apply Hnot; unfold Spec.all_fields;
    rewrite !elem_of_cons; auto 10.
Qed.

Lemma text_entry (key required too_long : string) (input : option string) :
  field_error (text required too_long (Spec.max_length key)) input = None
  <-> Spec.text_ok key input = true.
Proof.
  rewrite field_error_text. unfold Spec.text_ok. destruct input as [s|]; [|easy].
  destruct (Nat.ltb_spec (String.length (trim s)) 1) as [L|L];
    destruct (Nat.ltb_spec (Spec.max_length key) (String.length (trim s))) as [U|U];
    rewrite andb_true_iff, !Nat.leb_le; split; (discriminate || lia || reflexivity).
Qed.

Lemma email_entry (input : option string) :
  field_error email_schema input = None <-> Spec.email_ok input = true.
Proof.
  rewrite field_error_email. unfold Spec.email_ok. destruct input as [s|]; [|easy].
  change (Spec.max_length "email") with 255%nat.
  destruct (is_email (trim s)); [|easy]. cbn [andb].
  destruct (Nat.ltb_spec 255 (String.length (trim s))) as [U|U];
    rewrite Nat.leb_le; split; (discriminate || lia || reflexivity).
Qed.

Lemma url_entry (input : option string) :
  field_error url_schema input = None <-> Spec.url_ok input = true.
Proof.
  rewrite field_error_url. unfold Spec.url_ok.
  destruct input as [[|c rest]|]; [easy| |easy].
  now destruct (is_url (String c rest)).
Qed.

(** The ValidationResult has an entry exactly for the fields that do
    not meet the spec's description. *)
Lemma validate_entry (v : Variant) (formValues : gmap string string) (key : string) :
  validate v formValues !! key = None
  <-> (key ∈ Spec.all_fields -> Spec.field_ok v formValues key = true).
Proof.
  destruct (decide (key ∈ Spec.all_fields)) as [Hin|Hnot].
  - assert (forall P : Prop, P <-> (key ∈ Spec.all_fields -> P)) as drop by tauto.
    rewrite <- drop. clear drop. unfold Spec.all_fields in Hin.
    repeat (apply elem_of_cons in Hin as [->|Hin]).
    + rewrite validate_name.
      apply (text_entry "name" _ _ (formValues !! "name")).
    + rewrite validate_phone.
      apply (text_entry "phone" _ _ (formValues !! "phone")).
    + rewrite validate_email. apply email_entry.
    + rewrite validate_researchTopic.
      apply (text_entry "researchTopic" _ _ (formValues !! "researchTopic")).
    + rewrite validate_submissionUrl.
      destruct v; [apply url_entry | easy].
    + now apply elem_of_nil in Hin.
  - rewrite (validate_other _ _ _ Hnot). tauto.
Qed.

Lemma validate_empty_iff (v : Variant) (formValues : gmap string string) :
  validate v formValues = ∅ <-> Spec.valid v formValues = true.
Proof.
  unfold Spec.valid. rewrite forallb_forall. split.
  - intros E key Hin. apply validate_entry; [now rewrite E | now apply list_elem_of_In].
  - intros Hall. apply map_eq. intros key. rewrite lookup_empty.
    apply validate_entry. intros Hin. apply Hall. now apply list_elem_of_In.
Qed.

End ValidateFacts.

(** ** Validation: what the schema accepts and what it reports *)

Lemma blank_not_ok `{StringFormats} (v : Variant) (formValues : gmap string string)
      (key : string) :
  key ∈ Spec.required ->
  Spec.blank (formValues !! key) = true ->
  (key = "email" -> is_email EmptyString = false) ->
  Spec.field_ok v formValues key = false.
Proof.
  intros Hreq Hblank Hemail. unfold Spec.required in Hreq.
  assert (forall s, Spec.blank (Some s) = true -> trim s = EmptyString) as Htrim.
  { intros s E. now apply String.eqb_eq. }
  repeat (apply elem_of_cons in Hreq as [->|Hreq]); [..|now apply elem_of_nil in Hreq];
    unfold Spec.field_ok; cbn [String.eqb Ascii.eqb Bool.eqb];
    destruct (formValues !! _) as [s|]; try reflexivity;
    unfold Spec.text_ok, Spec.email_ok; rewrite (Htrim s Hblank); try reflexivity.
  now rewrite Hemail.
Qed.

Lemma required_in_all (key : string) : key ∈ Spec.required -> key ∈ Spec.all_fields.
Proof.
  unfold Spec.required, Spec.all_fields. rewrite !elem_of_cons. tauto.
Qed.

Lemma field_error_trimmed `{StringFormats} (v : Variant) (key : string) (s : string) :
  key ∈ Spec.required ->
  (schema ← assoc key (researchFormSchema v); field_error schema (Some s))
  = (schema ← assoc key (researchFormSchema v); field_error schema (Some (trim s))).
Proof.
  intros Hreq. unfold Spec.required in Hreq.
  repeat (apply elem_of_cons in Hreq as [->|Hreq]); [..|now apply elem_of_nil in Hreq].
  - rewrite assoc_name. cbn [mbind option_bind]. now rewrite !field_error_text, trim_idem.
  - rewrite assoc_phone. cbn [mbind option_bind]. now rewrite !field_error_text, trim_idem.
  - rewrite assoc_email. cbn [mbind option_bind]. now rewrite !field_error_email, trim_idem.
  - rewrite assoc_researchTopic. cbn [mbind option_bind].
    now rewrite !field_error_text, trim_idem.
Qed.

(** C4: values in which every required field is non-empty once trimmed
    and within its length bound, the email is an email address and the
    endpoint, where the form has one, is omitted, empty or a URL, get an
    empty ValidationResult. *)
Theorem C4_valid_values_pass `{StringFormats} (v : Variant)
        (formValues : gmap string string) :
  Spec.valid v formValues = true -> validate v formValues = ∅.
Proof. apply validate_empty_iff. Qed.

Lemma C4_valid_values_pass_witness :
  @Spec.valid Zod3.formats UserEndpoint (<["submissionUrl" := placeholderUrl]> scenario_values) = true
  /\ @validate Zod3.formats UserEndpoint (<["submissionUrl" := placeholderUrl]> scenario_values) = ∅.
Proof.
  split; [vm_compute; reflexivity|].
  apply (@C4_valid_values_pass Zod3.formats). vm_compute. reflexivity.
Defined.

(** C5: when one required field is missing (absent, or empty once
    trimmed) and every other field is valid, the ValidationResult has an
    entry for that field and for no other.  For the email field this
    needs the email pattern to reject the empty string, as every
    pattern with an at-sign does. *)
Theorem C5_missing_field_alone `{StringFormats} (v : Variant)
        (formValues : gmap string string) (key : string) :
  key ∈ Spec.required ->
  Spec.blank (formValues !! key) = true ->
  Spec.valid_but key v formValues = true ->
  (key = "email" -> is_email EmptyString = false) ->
  dom (validate v formValues) = {[ key ]}.
Proof.
  intros Hreq Hblank Hothers Hemail.
  pose proof (blank_not_ok v formValues key Hreq Hblank Hemail) as Hbad.
  unfold Spec.valid_but in Hothers. rewrite forallb_forall in Hothers.
  apply set_eq. intros k. rewrite elem_of_dom, elem_of_singleton.
  rewrite <- not_eq_None_Some, validate_entry. split.
  - intros Hentry. destruct (decide (k = key)) as [|Hne]; [assumption|].
    exfalso. apply Hentry. intros Hin.
    specialize (Hothers k (proj1 (list_elem_of_In _ _) Hin)).
    apply orb_true_iff in Hothers as [E|E]; [|exact E].
    apply String.eqb_eq in E. contradiction.
  - intros -> Hok. rewrite Hok in Hbad; [discriminate|].
    now apply required_in_all.
Qed.

Lemma C5_missing_field_alone_witness :
  dom (@validate Zod3.formats FixedEndpoint (<["name" := "   "]> scenario_values))
  = {[ "name" ]}.
Proof.
  apply (@C5_missing_field_alone Zod3.formats).
  - unfold Spec.required. rewrite !elem_of_cons. auto.
  - vm_compute. reflexivity.
  - vm_compute. reflexivity.
  - intros _. reflexivity.
Defined.

(** C7, as the schema has it: the name, phone, email and research-topic
    values are trimmed before any check, so the result is that of the
    trimmed value; the email check runs on the trimmed value also when
    that is empty; the endpoint field is not trimmed: omitted or exactly
    empty it passes, any other value, whitespace included, is put to the
    URL check as it stands. *)
Theorem C7_trim_then_check `{StringFormats} (v : Variant)
        (formValues : gmap string string) :
  (forall key s, key ∈ Spec.required ->
                 validate v (<[key := s]> formValues)
                 = validate v (<[key := trim s]> formValues))
  /\ (forall s, formValues !! "email" = Some s -> is_email (trim s) = false ->
                validate v formValues !! "email" = Some "Invalid email address")
  /\ (formValues !! "submissionUrl" = None \/ formValues !! "submissionUrl" = Some EmptyString ->
      validate v formValues !! "submissionUrl" = None)
  /\ (forall s, s <> EmptyString -> formValues !! "submissionUrl" = Some s ->
                validate UserEndpoint formValues !! "submissionUrl"
                = if is_url s then None else Some "Please enter a valid URL").
Proof.
  repeat split.
  - intros key s Hreq. apply map_eq. intros k. rewrite !validate_lookup.
    destruct (decide (key = k)) as [<-|Hne].
    + rewrite !lookup_insert_eq. now apply field_error_trimmed.
    + now rewrite !lookup_insert_ne.
  - intros s Hs Hbad. now rewrite validate_email, field_error_email, Hs, Hbad.
  - intros [E|E]; rewrite validate_submissionUrl, E; destruct v; try reflexivity;
      now rewrite field_error_url.
  - intros s Hne Hs. rewrite validate_submissionUrl, field_error_url, Hs.
    destruct s; [contradiction | reflexivity].
Qed.

Lemma C7_trim_then_check_witness :
  @validate Zod3.formats FixedEndpoint (<["name" := "  Jane Doe "]> scenario_values)
  = @validate Zod3.formats FixedEndpoint (<["name" := "Jane Doe"]> scenario_values)
  /\ @validate Zod3.formats UserEndpoint (<["submissionUrl" := EmptyString]> scenario_values)
     !! "submissionUrl" = None.
Proof.
  split.
  - apply (proj1 (@C7_trim_then_check Zod3.formats FixedEndpoint scenario_values)
                 "name" "  Jane Doe ").
    unfold Spec.required. rewrite !elem_of_cons. auto.
  - apply (proj1 (proj2 (proj2 (@C7_trim_then_check Zod3.formats UserEndpoint
                                  (<["submissionUrl" := EmptyString]> scenario_values))))).
    right. vm_compute. reflexivity.
Defined.

(** C7 as the spec words it fails twice: an endpoint value of two
    spaces, empty once trimmed, is reported as an invalid URL, and an
    empty email value is reported by the email format check. *)
Lemma C7_counterexample :
  trim "  " = EmptyString
  /\ @validate Zod3.formats UserEndpoint (<["submissionUrl" := "  "]> scenario_values)
     = {[ "submissionUrl" := "Please enter a valid URL" ]}
  /\ @validate Zod3.formats UserEndpoint (<["email" := EmptyString]> scenario_values)
     = {[ "email" := "Invalid email address" ]}.
Proof. repeat split; vm_compute; reflexivity. Qed.

(** ** [onSubmit], case by case *)

Lemma ok_iff (status : Z) : ok status = true <-> (200 <= status < 300)%Z.
Proof. unfold ok. rewrite andb_true_iff, !Z.leb_le. lia. Qed.

(** Unfold the statements of an action down to state transformers. *)
Ltac run_action :=
  unfold onSubmit, onSubmit_resume, onSubmit_begin, try_catch_finally, fetch, await,
    on_response, mbind, Action_bind, mret, Action_ret, throw, send, toast, form_reset,
    setIsSubmitting, setIsSubmitted, setErrors;
  cbn -[ok].

Lemma onSubmit_success (v : Variant) (props : ResearchFormProps)
      (data : gmap string string) (now status : Z) (st : FormState) :
  ok status = true ->
  onSubmit v props data now (Resolved status) st
  = (Normal (),
     {| isSubmitting := false;
        isSubmitted := true;
        fieldValues := defaultValues v;
        fieldErrors := ∅;
        toasts := toasts st ++ [successToast v];
        requests := requests st ++ [request v props data now] |}).
Proof.
  intros Hok. run_action. rewrite Hok. reflexivity.
Qed.

Lemma onSubmit_failure (v : Variant) (props : ResearchFormProps)
      (data : gmap string string) (now : Z) (reply : FetchReply) (st : FormState) :
  Spec.failure reply ->
  onSubmit v props data now reply st
  = (Normal (),
     {| isSubmitting := false;
        isSubmitted := isSubmitted st;
        fieldValues := fieldValues st;
        fieldErrors := fieldErrors st;
        toasts := toasts st ++ [errorToast v];
        requests := requests st ++ [request v props data now] |}).
Proof.
  intros Hfail. destruct reply as [status|reason]; run_action.
  - destruct (ok status) eqn:Hok; [|reflexivity].
    apply ok_iff in Hok. contradiction.
  - reflexivity.
Qed.

(** Cutting [onSubmit] at its [await] changes nothing. *)
Lemma onSubmit_split (v : Variant) (props : ResearchFormProps)
      (data : gmap string string) (now : Z) (reply : FetchReply) (st : FormState) :
  onSubmit v props data now reply st
  = onSubmit_resume v reply (onSubmit_begin v props data now st).2.
Proof.
  destruct reply as [status|reason]; run_action; [destruct (ok status)|]; reflexivity.
Qed.

(** Whatever the body and the handler of a [try] do, a [finally] block
    that clears the flag leaves it cleared. *)
Lemma finally_clears_flag {A} (body : Action A) (handler : string -> Action A)
      (st : FormState) :
  isSubmitting (try_catch_finally body handler (setIsSubmitting false) st).2 = false.
Proof.
  unfold try_catch_finally. destruct (body st) as [[a|e] st1].
  - reflexivity.
  - now destruct (handler e st1) as [c st2].
Qed.

Lemma handleSubmit_invalid `{StringFormats} (v : Variant)
      (onValid : gmap string string -> Action unit) (st : FormState) :
  validate v (fieldValues st) <> ∅ ->
  handleSubmit v onValid st = setErrors (validate v (fieldValues st)) st.
Proof.
  intros Hbad. unfold handleSubmit. fold (validate v (fieldValues st)).
  now destruct (decide (validate v (fieldValues st) = ∅)).
Qed.

Lemma handleSubmit_valid `{StringFormats} (v : Variant)
      (onValid : gmap string string -> Action unit) (st : FormState) :
  validate v (fieldValues st) = ∅ ->
  handleSubmit v onValid st
  = (setErrors ∅ ;; onValid (values (zodResolver (researchFormSchema v) (fieldValues st)))) st.
Proof.
  intros Hgood. unfold handleSubmit. fold (validate v (fieldValues st)).
  now destruct (decide (validate v (fieldValues st) = ∅)).
Qed.

(** ** Submission: success, failure, refusal *)

Lemma defaults_required (v : Variant) (key : string) :
  key ∈ Spec.required -> defaultValues v !! key = Some EmptyString.
Proof.
  unfold Spec.required. intros Hin.
  repeat (apply elem_of_cons in Hin as [->|Hin]); [..|now apply elem_of_nil in Hin];
    destruct v; vm_compute; reflexivity.
Qed.

Lemma defaults_fixed_all_empty : Spec.all_empty (defaultValues FixedEndpoint).
Proof.
  intros key value. unfold defaultValues.
  rewrite !lookup_insert, lookup_singleton. repeat case_decide; congruence.
Qed.

(** C1, as the code has it: on a response with a status in [200,300)
    the attempt ends with the success toast, the state is Succeeded, and
    the values are reset to the form's defaults: the empty string for
    name, phone, email and research topic and, in the copy with the
    endpoint field, the placeholder URL for [submissionUrl]; in the copy
    without that field every value is the empty string. *)
Theorem C1_success_resets_to_defaults (v : Variant) (props : ResearchFormProps)
        (data : gmap string string) (now status : Z) (st : FormState) :
  (200 <= status < 300)%Z ->
  let done := onSubmit v props data now (Resolved status) st in
  done.1 = Normal ()
  /\ toasts done.2 = toasts st ++ [successToast v]
  /\ submissionState done.2 = Succeeded
  /\ isSubmitting done.2 = false
  /\ fieldValues done.2 = defaultValues v
  /\ (forall key, key ∈ Spec.required -> fieldValues done.2 !! key = Some EmptyString)
  /\ fieldValues done.2 !! "submissionUrl"
     = match v with UserEndpoint => Some placeholderUrl | FixedEndpoint => None end
  /\ (v = FixedEndpoint -> Spec.all_empty (fieldValues done.2)).
Proof.
  intros Hok. apply ok_iff in Hok. cbv zeta.
  rewrite (onSubmit_success v props data now status st Hok). cbn [fst snd fieldValues toasts isSubmitting].
  repeat split.
  - intros key Hkey. now apply defaults_required.
  - now destruct v.
  - intros ->. apply defaults_fixed_all_empty.
Qed.

Lemma C1_success_resets_to_defaults_witness :
  submissionState
    (onSubmit FixedEndpoint defaultProps scenario_values 0 (Resolved 201)
              (component (filled_page FixedEndpoint))).2 = Succeeded
  /\ fieldValues
       (onSubmit FixedEndpoint defaultProps scenario_values 0 (Resolved 201)
                 (component (filled_page FixedEndpoint))).2 = defaultValues FixedEndpoint.
Proof.
  pose proof (C1_success_resets_to_defaults FixedEndpoint defaultProps scenario_values
                0 201 (component (filled_page FixedEndpoint)) ltac:(lia)) as W.
  cbv zeta in W. split; [apply W | apply W].
Defined.

(** C1 as the spec words it fails in the copy with the endpoint field:
    scenario A, answered with HTTP 201, leaves [submissionUrl] holding
    the placeholder URL, not the empty string. *)
Lemma C1_counterexample :
  let after :=
    component
      (@dispatch_all Zod3.formats UserEndpoint defaultProps
         [Submit 0; Settle (Resolved 201)] (filled_page UserEndpoint)) in
  submissionState after = Succeeded
  /\ fieldValues after !! "submissionUrl" = Some placeholderUrl
  /\ ~ Spec.all_empty (fieldValues after).
Proof.
  cbv zeta.
  assert (fieldValues
            (component
               (@dispatch_all Zod3.formats UserEndpoint defaultProps
                  [Submit 0; Settle (Resolved 201)] (filled_page UserEndpoint)))
          !! "submissionUrl" = Some placeholderUrl) as Hurl
      by (vm_compute; reflexivity).
  split; [|split].
  - vm_compute. reflexivity.
  - exact Hurl.
  - intros Hall. specialize (Hall _ _ Hurl). discriminate Hall.
Qed.

(** C2: on a response with a status outside [200,300), or when the
    request is rejected, the attempt ends with the error toast, every
    form value is as it was, and the state is Idle.  The handler runs
    from the form, which is on screen only while [isSubmitted] is
    false. *)
Theorem C2_failure_keeps_values (v : Variant) (props : ResearchFormProps)
        (data : gmap string string) (now : Z) (reply : FetchReply) (st : FormState) :
  Spec.failure reply ->
  isSubmitted st = false ->
  let done := onSubmit v props data now reply st in
  done.1 = Normal ()
  /\ toasts done.2 = toasts st ++ [errorToast v]
  /\ fieldValues done.2 = fieldValues st
  /\ submissionState done.2 = Idle.
Proof.
  intros Hfail Hform. cbv zeta.
  rewrite (onSubmit_failure v props data now reply st Hfail).
  unfold submissionState. cbn [fst snd fieldValues toasts isSubmitting isSubmitted].
  now rewrite Hform.
Qed.

Lemma C2_failure_keeps_values_witness :
  fieldValues
    (onSubmit FixedEndpoint defaultProps scenario_values 0 (Resolved 500)
              (component (filled_page FixedEndpoint))).2
  = fieldValues (component (filled_page FixedEndpoint))
  /\ submissionState
       (onSubmit FixedEndpoint defaultProps scenario_values 0 (Resolved 500)
                 (component (filled_page FixedEndpoint))).2 = Idle.
Proof.
  assert (Spec.failure (Resolved 500)) as Hfail by (cbn; lia).
  assert (isSubmitted (component (filled_page FixedEndpoint)) = false) as Hform
      by (vm_compute; reflexivity).
  pose proof (C2_failure_keeps_values FixedEndpoint defaultProps scenario_values
                0 (Resolved 500) (component (filled_page FixedEndpoint)) Hfail Hform) as W.
  cbv zeta in W. split; apply W.
Defined.

(** C3: when the values do not validate, [handleSubmit] does not call
    [onSubmit]: the non-empty ValidationResult becomes the form's
    errors, and no request, toast or state change follows. *)
Theorem C3_invalid_values_not_sent `{StringFormats} (v : Variant)
        (props : ResearchFormProps) (now : Z) (reply : FetchReply) (st : FormState) :
  validate v (fieldValues st) <> ∅ ->
  let done := handleSubmit v (fun data => onSubmit v props data now reply) st in
  requests done.2 = requests st
  /\ fieldErrors done.2 = validate v (fieldValues st)
  /\ fieldErrors done.2 <> ∅
  /\ fieldValues done.2 = fieldValues st
  /\ toasts done.2 = toasts st
  /\ isSubmitting done.2 = isSubmitting st
  /\ isSubmitted done.2 = isSubmitted st.
Proof.
  intros Hbad. cbv zeta. rewrite (handleSubmit_invalid v _ st Hbad).
  unfold setErrors. cbn [snd requests fieldErrors fieldValues toasts isSubmitting isSubmitted].
  repeat split. exact Hbad.
Qed.

Lemma C3_invalid_values_not_sent_witness :
  let st := component (@dispatch Zod3.formats FixedEndpoint defaultProps
                         (Change "name" EmptyString) (filled_page FixedEndpoint)) in
  requests (@handleSubmit Zod3.formats FixedEndpoint
              (fun data => onSubmit FixedEndpoint defaultProps data 0 (Resolved 201)) st).2
  = requests st
  /\ fieldErrors (@handleSubmit Zod3.formats FixedEndpoint
                    (fun data => onSubmit FixedEndpoint defaultProps data 0 (Resolved 201)) st).2
     = {[ "name" := "Name is required" ]}.
Proof.
  cbv zeta.
  assert (@validate Zod3.formats FixedEndpoint
            (fieldValues (component (@dispatch Zod3.formats FixedEndpoint defaultProps
                                       (Change "name" EmptyString) (filled_page FixedEndpoint))))
          = {[ "name" := "Name is required" ]}) as Hval by (vm_compute; reflexivity).
  assert (@validate Zod3.formats FixedEndpoint
            (fieldValues (component (@dispatch Zod3.formats FixedEndpoint defaultProps
                                       (Change "name" EmptyString) (filled_page FixedEndpoint))))
          <> ∅) as Hbad by (rewrite Hval; vm_compute; discriminate).
  pose proof (@C3_invalid_values_not_sent Zod3.formats FixedEndpoint defaultProps 0
                (Resolved 201) _ Hbad) as W.
  cbv zeta in W. destruct W as (Wreq & Werr & _). split; [exact Wreq|].
  now rewrite Werr.
Defined.

Lemma onSubmit_requests (v : Variant) (props : ResearchFormProps)
      (data : gmap string string) (now : Z) (reply : FetchReply) (st : FormState) :
  requests (onSubmit v props data now reply st).2
  = requests st ++ [request v props data now].
Proof.
  destruct reply as [status|reason].
  - destruct (ok status) eqn:Hok.
    + now rewrite onSubmit_success.
    + rewrite onSubmit_failure; [reflexivity|]. cbn. rewrite <- ok_iff. congruence.
  - now rewrite onSubmit_failure.
Qed.

(** C9: in the copy with the endpoint field, when the submitted data
    has no [submissionUrl] or an empty one, [onSubmit] still sends its
    one POST, to the placeholder URL, whatever the reply turns out to
    be. *)
Theorem C9_empty_endpoint_defaults (props : ResearchFormProps)
        (data : gmap string string) (now : Z) (reply : FetchReply) (st : FormState) :
  data !! "submissionUrl" = None \/ data !! "submissionUrl" = Some EmptyString ->
  requests (onSubmit UserEndpoint props data now reply st).2
  = requests st
    ++ [ {| url := "https://jsonplaceholder.typicode.com/posts";
            method := "POST";
            headers := [("Content-Type", "application/json")];
            body := Js.JSON_stringify (payload UserEndpoint data now) |} ].
Proof.
  intros Hurl. rewrite onSubmit_requests. unfold request, endpoint.
  now destruct Hurl as [-> | ->].
Qed.

Lemma C9_empty_endpoint_defaults_witness :
  map url
      (requests (onSubmit UserEndpoint defaultProps scenario_values 0 (Rejected "offline")
                          (initialState UserEndpoint)).2)
  = ["https://jsonplaceholder.typicode.com/posts"].
Proof.
  rewrite (C9_empty_endpoint_defaults defaultProps scenario_values 0 (Rejected "offline")
             (initialState UserEndpoint)).
  - reflexivity.
  - left. vm_compute. reflexivity.
Defined.

(** C10: however the attempt ends (a 2xx response, any other response,
    a rejected request), [onSubmit] completes with [isSubmitting]
    false: the state it leaves is never Submitting. *)
Theorem C10_flag_always_cleared (v : Variant) (props : ResearchFormProps)
        (data : gmap string string) (now : Z) (reply : FetchReply) (st : FormState) :
  (onSubmit v props data now reply st).1 = Normal ()
  /\ isSubmitting (onSubmit v props data now reply st).2 = false
  /\ submissionState (onSubmit v props data now reply st).2 <> Submitting.
Proof.
  assert (isSubmitting (onSubmit v props data now reply st).2 = false) as Hflag.
  { unfold onSubmit, mbind, Action_bind. cbn [setIsSubmitting].
    apply finally_clears_flag. }
  split; [|split].
  - destruct reply as [status|reason]; [destruct (ok status) eqn:Hok|].
    + now rewrite onSubmit_success.
    + rewrite onSubmit_failure; [reflexivity|]. cbn. rewrite <- ok_iff. congruence.
    + now rewrite onSubmit_failure.
  - exact Hflag.
  - unfold submissionState. rewrite Hflag.
    now destruct (isSubmitted (onSubmit v props data now reply st).2).
Qed.

(** ** The page: one request at a time *)

Section PageFacts.

Context `{StringFormats}.
Variable v : Variant.
Variable props : ResearchFormProps.

Lemma submit_blocked (now : Z) (p : Page) :
  isSubmitting (component p) = true -> dispatch v props (Submit now) p = p.
Proof.
  intros Hbusy. unfold dispatch, render. rewrite Hbusy.
  destruct (negb (default true (show props))); [reflexivity|].
  now destruct (isSubmitted (component p)).
Qed.

(** A submit reaches the handler only from the form, shown and not
    disabled. *)
Lemma submit_only_from_form (now : Z) (p : Page) :
  dispatch v props (Submit now) p <> p ->
  isSubmitted (component p) = false /\ isSubmitting (component p) = false.
Proof.
  unfold dispatch, render. intros Hmoved.
  destruct (negb (default true (show props))); [contradiction|].
  destruct (isSubmitted (component p)); [contradiction|].
  now destruct (isSubmitting (component p)).
Qed.

Lemma visitor_event_while_submitting (e : Event) (p : Page) :
  from_visitor e = true ->
  isSubmitting (component p) = true ->
  requests (component (dispatch v props e p)) = requests (component p)
  /\ isSubmitting (component (dispatch v props e p)) = true
  /\ settled (dispatch v props e p) = settled p.
Proof.
  intros Hvisitor Hbusy. destruct e as [now|name value| |reply]; [..|discriminate].
  - now rewrite submit_blocked.
  - unfold dispatch, render. rewrite Hbusy.
    destruct (negb (default true (show props))); [easy|].
    now destruct (isSubmitted (component p)).
  - unfold dispatch, render. rewrite Hbusy.
    destruct (negb (default true (show props))); [easy|].
    now destruct (isSubmitted (component p)).
Qed.

Lemma resume_keeps_requests (reply : FetchReply) (st : FormState) :
  requests (onSubmit_resume v reply st).2 = requests st
  /\ isSubmitting (onSubmit_resume v reply st).2 = false.
Proof.
  split; [|apply finally_clears_flag].
  destruct reply as [status|reason]; run_action; [destruct (ok status)|]; reflexivity.
Qed.

Lemma dispatch_keeps_invariant (e : Event) (p : Page) :
  flag_tracks_requests p -> flag_tracks_requests (dispatch v props e p).
Proof.
  unfold flag_tracks_requests. intros Hinv.
  destruct e as [now|name value| |reply]; unfold dispatch, render.
  - destruct (negb (default true (show props))); [exact Hinv|].
    destruct (isSubmitted (component p)); [exact Hinv|].
    destruct (isSubmitting (component p)) eqn:Hbusy; [now rewrite Hbusy|].
    unfold run, handleSubmit. cbn [component settled].
    destruct (decide (errors (zodResolver (researchFormSchema v) (fieldValues (component p))) = ∅)).
    + run_action. rewrite length_app. cbn [length]. lia.
    + run_action. now rewrite Hbusy.
  - destruct (negb (default true (show props))); [exact Hinv|].
    destruct (isSubmitted (component p)); [exact Hinv|].
    destruct (isSubmitting (component p)) eqn:Hbusy; [now rewrite Hbusy|].
    destruct (decide (name ∈ inputs v)); [|now rewrite Hbusy].
    unfold run, setValue. cbn. now rewrite Hbusy.
  - destruct (negb (default true (show props))); [exact Hinv|].
    destruct (isSubmitted (component p)); [|exact Hinv].
    unfold run. run_action. exact Hinv.
  - destruct (decide (settled p < length (requests (component p)))) as [Hlt|]; [|exact Hinv].
    cbn [component settled].
    destruct (resume_keeps_requests reply (component p)) as [-> ->].
    destruct (isSubmitting (component p)); lia.
Qed.

End PageFacts.

(** C6, as the code has it: while [isSubmitting] holds, the submit
    button and the inputs are rendered disabled, so a submit by the
    visitor through the rendered form changes nothing, and no sequence
    of visitor events on the page (submits, edits, the confirmation
    button) adds a request or clears the flag. *)
Theorem C6_no_submit_while_submitting `{StringFormats} (v : Variant)
        (props : ResearchFormProps) (events : list Event) (p : Page) :
  isSubmitting (component p) = true ->
  forallb from_visitor events = true ->
  (forall now, dispatch v props (Submit now) p = p)
  /\ requests (component (dispatch_all v props events p)) = requests (component p)
  /\ isSubmitting (component (dispatch_all v props events p)) = true.
Proof.
  intros Hbusy Hvisitors. split; [intros now; now apply submit_blocked|].
  unfold dispatch_all. revert p Hbusy.
  induction events as [|e events IH]; intros p Hbusy; [easy|].
  cbn [forallb] in Hvisitors. apply andb_true_iff in Hvisitors as [He Hrest].
  destruct (visitor_event_while_submitting v props e p He Hbusy) as (Hreq & Hflag & _).
  cbn [fold_left]. destruct (IH Hrest _ Hflag) as [Hreq' Hflag'].
  split; [now rewrite Hreq', Hreq | exact Hflag'].
Qed.

Lemma C6_no_submit_while_submitting_witness :
  let busy := @dispatch Zod3.formats FixedEndpoint defaultProps (Submit 0)
                        (filled_page FixedEndpoint) in
  length (requests (component busy)) = 1
  /\ requests (component (@dispatch_all Zod3.formats FixedEndpoint defaultProps
                            [Submit 1; Change "name" "x"; Submit 2] busy))
     = requests (component busy).
Proof.
  cbv zeta. split; [vm_compute; reflexivity|].
  apply (@C6_no_submit_while_submitting Zod3.formats FixedEndpoint defaultProps
           [Submit 1; Change "name" "x"; Submit 2]).
  - vm_compute. reflexivity.
  - reflexivity.
Defined.

(** C6 as the spec words it fails: the guard is in the view, the
    handler has none.  With the first request still awaited and the
    state Submitting, running [form.handleSubmit(onSubmit)] once more
    sends a second request. *)
Lemma C6_counterexample :
  let submit := fun now : Z =>
    @handleSubmit Zod3.formats FixedEndpoint
      (fun data => onSubmit_begin FixedEndpoint defaultProps data now) in
  let busy := (submit 0%Z (component (filled_page FixedEndpoint))).2 in
  submissionState busy = Submitting
  /\ length (requests busy) = 1
  /\ submissionState (submit 1%Z busy).2 = Submitting
  /\ length (requests (submit 1%Z busy).2) = 2.
Proof. cbv zeta. repeat split; vm_compute; reflexivity. Qed.

(** ** [toISOString] writes ISO 8601 *)

Example iso8601_samples :
  map Spec.iso8601_utc
      ["1970-01-01T00:00:00.000Z"; "+010000-01-01T00:00:00.000Z"; "1970-13-01T00:00:00.000Z";
       "1970-01-01 00:00:00.000Z"; "1970-01-01T00:00:00Z"; "70-01-01T00:00:00.000Z"]
  = [true; true; false; false; false; false].
Proof. vm_compute. reflexivity. Qed.

Lemma holds_from_spec (count : nat) (f : Z -> bool) :
  forall start, holds_from count start f = true ->
                forall n, (start <= n < start + Z.of_nat count)%Z -> f n = true.
Proof.
  induction count as [|count IH]; intros start Hall n Hn; [lia|].
  cbn [holds_from] in Hall. destruct (f start) eqn:Hstart; [|discriminate].
  destruct (Z.eq_dec n start) as [->|Hne]; [exact Hstart|].
  apply (IH (start + 1)%Z Hall). lia.
Qed.

Lemma checked_below (f : Z -> bool) (k : Z) :
  holds_from (Z.to_nat k) 0 f = true ->
  forall n, (0 <= n < k)%Z -> f n = true.
Proof.
  intros Hall n Hn. apply (holds_from_spec _ _ _ Hall). lia.
Qed.

Lemma digit_char_digit (d : Z) : (0 <= d < 10)%Z -> Spec.digit (Js.digit_char d) = true.
Proof.
  apply (checked_below (fun d => Spec.digit (Js.digit_char d)) 10%Z). reflexivity.
Qed.

Lemma string_length_2 (s : string) :
  String.length s = 2 -> exists a b, s = String a (String b EmptyString).
Proof. destruct s as [|a [|b [|c s]]]; try discriminate. intros _. now exists a, b. Qed.

Lemma string_length_3 (s : string) :
  String.length s = 3 -> exists a b c, s = String a (String b (String c EmptyString)).
Proof.
  destruct s as [|a [|b [|c [|d s]]]]; try discriminate. intros _. now exists a, b, c.
Qed.

Lemma string_length_4 (s : string) :
  String.length s = 4 ->
  exists a b c d, s = String a (String b (String c (String d EmptyString))).
Proof.
  destruct s as [|a [|b [|c [|d [|e s]]]]]; try discriminate. intros _. now exists a, b, c, d.
Qed.

Lemma string_length_6 (s : string) :
  String.length s = 6 ->
  exists a b c d e f,
    s = String a (String b (String c (String d (String e (String f EmptyString))))).
Proof.
  destruct s as [|a [|b [|c [|d [|e [|f [|g s]]]]]]]; try discriminate.
  intros _. now exists a, b, c, d, e, f.
Qed.

Lemma append_cons (c : ascii) (s t : string) : String c s +:+ t = String c (s +:+ t).
Proof. reflexivity. Qed.

Lemma append_nil (t : string) : EmptyString +:+ t = t.
Proof. reflexivity. Qed.

Lemma digits_app (s t : string) :
  Spec.digits (s +:+ t) = Spec.digits s && Spec.digits t.
Proof.
  induction s as [|c s IH]; [reflexivity|].
  rewrite append_cons. cbn [Spec.digits]. now rewrite IH, andb_assoc.
Qed.

Lemma string_app_assoc (s t u : string) : (s +:+ t) +:+ u = s +:+ (t +:+ u).
Proof. induction s as [|c s IH]; [reflexivity|]. rewrite !append_cons. now rewrite IH. Qed.

Lemma string_app_length (s t : string) :
  String.length (s +:+ t) = String.length s + String.length t.
Proof.
  induction s as [|c s IH]; [reflexivity|].
  rewrite append_cons. cbn [String.length]. now rewrite IH.
Qed.

Lemma digits_of_S (fuel : nat) (n : Z) (acc : string) :
  Js.digits_of (S fuel) n acc
  = if (n <? 10)%Z then String (Js.digit_char (n mod 10)) acc
    else Js.digits_of fuel (n / 10) (String (Js.digit_char (n mod 10)) acc).
Proof. reflexivity. Qed.

(** The digits [digits_of] puts in front of its accumulator. *)
Lemma digits_of_shape (fuel : nat) :
  forall (n : Z) (acc : string) (m : nat),
    (0 <= n < 10 ^ Z.of_nat (S fuel))%Z ->
    (n < 10 ^ Z.of_nat (S m))%Z ->
    exists ds, Js.digits_of (S fuel) n acc = ds +:+ acc
               /\ Spec.digits ds = true
               /\ 1 <= String.length ds <= S m.
Proof.
  induction fuel as [|fuel IH]; intros n acc m Hfuel Hm.
  - change (10 ^ Z.of_nat 1)%Z with 10%Z in Hfuel.
    exists (String (Js.digit_char (n mod 10)) EmptyString).
    rewrite digits_of_S. cbn [Js.digits_of].
    destruct (n <? 10)%Z; rewrite append_cons, append_nil;
      cbn [Spec.digits String.length];
      rewrite digit_char_digit by (apply Z.mod_pos_bound; lia); repeat split; lia.
  - rewrite digits_of_S. destruct (Z.ltb_spec n 10%Z) as [Hsmall|Hbig].
    + exists (String (Js.digit_char (n mod 10)) EmptyString).
      rewrite append_cons, append_nil. cbn [Spec.digits String.length].
      rewrite digit_char_digit by (apply Z.mod_pos_bound; lia). repeat split; lia.
    + destruct m as [|m].
      { change (10 ^ Z.of_nat 1)%Z with 10%Z in Hm. lia. }
      assert (0 <= n / 10 < 10 ^ Z.of_nat (S fuel))%Z as Hfuel'.
      { split; [apply Z.div_pos; lia|].
        apply Z.div_lt_upper_bound; [lia|].
        rewrite <- Z.pow_succ_r by lia. rewrite <- Nat2Z.inj_succ. lia. }
      assert (n / 10 < 10 ^ Z.of_nat (S m))%Z as Hm'.
      { apply Z.div_lt_upper_bound; [lia|].
        rewrite <- Z.pow_succ_r by lia. rewrite <- Nat2Z.inj_succ. lia. }
      destruct (IH (n / 10)%Z (String (Js.digit_char (n mod 10)) acc) m Hfuel' Hm')
        as (ds & Eds & Hdigits & Hlen).
      exists (ds +:+ String (Js.digit_char (n mod 10)) EmptyString).
      rewrite Eds, string_app_assoc, digits_app, string_app_length, Hdigits.
      rewrite append_cons, append_nil. cbn [Spec.digits String.length].
      rewrite digit_char_digit by (apply Z.mod_pos_bound; lia). repeat split; lia.
Qed.

Lemma Number_toString_shape (n : Z) (m : nat) :
  (0 <= n < 10 ^ Z.of_nat (S m))%Z ->
  Spec.digits (Js.Number_toString n) = true
  /\ 1 <= String.length (Js.Number_toString n) <= S m.
Proof.
  intros Hn. unfold Js.Number_toString.
  destruct (Z.ltb_spec n 0%Z) as [Hneg|_]; [lia|].
  assert (0 <= n < 10 ^ Z.of_nat (S (Z.to_nat (Z.log2 n))))%Z as Hfuel.
  { split; [lia|]. rewrite Nat2Z.inj_succ, Z2Nat.id by apply Z.log2_nonneg.
    destruct (Z.eq_dec n 0%Z) as [->|Hpos]; [reflexivity|].
    apply Z.lt_le_trans with (2 ^ Z.succ (Z.log2 n))%Z.
    - apply Z.log2_spec. lia.
    - apply Z.pow_le_mono_l. lia. }
  destruct (digits_of_shape _ n EmptyString m Hfuel (proj2 Hn)) as (ds & -> & Hd & Hl).
  assert (ds +:+ EmptyString = ds) as ->.
  { clear. induction ds as [|c ds IH]; [reflexivity|]. now rewrite append_cons, IH. }
  now split.
Qed.

Lemma zeros_shape (k : nat) :
  Spec.digits (Js.zeros k) = true /\ String.length (Js.zeros k) = k.
Proof.
  induction k as [|k [IHd IHl]]; [now split|].
  cbn [Js.zeros Spec.digits String.length]. rewrite IHd, IHl. now split.
Qed.

(** A number below [10^m] is written in exactly [m] digits. *)
Lemma padded_shape (n : Z) (m : nat) :
  (0 <= n < 10 ^ Z.of_nat (S m))%Z ->
  Spec.digits (Js.ToZeroPaddedDecimalString n (S m)) = true
  /\ String.length (Js.ToZeroPaddedDecimalString n (S m)) = S m.
Proof.
  intros Hn. unfold Js.ToZeroPaddedDecimalString.
  destruct (Number_toString_shape n m Hn) as [Hd Hl].
  rewrite digits_app, string_app_length, Hd.
  destruct (zeros_shape (S m - String.length (Js.Number_toString n))) as [-> ->].
  split; [reflexivity | lia].
Qed.

(** Below 100 the two digits written read back as the number. *)
Lemma padded_two (n : Z) :
  (0 <= n < 100)%Z ->
  String.length (Js.ToZeroPaddedDecimalString n 2) = 2
  /\ Spec.two (Js.ToZeroPaddedDecimalString n 2) = Some (Z.to_nat n).
Proof.
  intros Hn.
  pose proof (checked_below
                (fun n => (String.length (Js.ToZeroPaddedDecimalString n 2) =? 2)%nat
                          && match Spec.two (Js.ToZeroPaddedDecimalString n 2) with
                             | Some k => (k =? Z.to_nat n)%nat
                             | None => false
                             end)
                100%Z ltac:(vm_compute; reflexivity) n Hn) as Hcheck.
  cbv beta in Hcheck. apply andb_true_iff in Hcheck as [Hlen Htwo].
  apply Nat.eqb_eq in Hlen. split; [exact Hlen|].
  destruct (Spec.two (Js.ToZeroPaddedDecimalString n 2)) as [k|]; [|discriminate].
  apply Nat.eqb_eq in Htwo. now subst.
Qed.

(** The calendar date of any day number has a month in 1..12 and a day
    in 1..31; checked on the 146097 days of the Gregorian cycle. *)
Lemma civil_from_days_ranges (day : Z) :
  let '(y, m, d) := Js.civil_from_days day in
  (1 <= m <= 12)%Z /\ (1 <= d <= 31)%Z
  /\ ((day + 719468) / 146097 * 400 <= y <= (day + 719468) / 146097 * 400 + 400)%Z.
Proof.
  unfold Js.civil_from_days.
  set (doe := ((day + 719468) mod 146097)%Z).
  set (era := ((day + 719468) / 146097)%Z).
  assert (0 <= doe < 146097)%Z as Hdoe.
  { subst doe. apply Z.mod_pos_bound. lia. }
  clearbody doe era.
  pose proof (checked_below
                (fun doe =>
                   let yoe := ((doe - doe / 1460 + doe / 36524 - doe / 146096) / 365)%Z in
                   let doy := (doe - (365 * yoe + yoe / 4 - yoe / 100))%Z in
                   let mp := ((5 * doy + 2) / 153)%Z in
                   let d := (doy - (153 * mp + 2) / 5 + 1)%Z in
                   let m := (if (mp <? 10)%Z then mp + 3 else mp - 9)%Z in
                   ((1 <=? m) && (m <=? 12) && (1 <=? d) && (d <=? 31)
                    && (0 <=? yoe) && (yoe <=? 399))%Z)
                146097%Z ltac:(vm_compute; reflexivity) doe Hdoe) as Hcheck.
  cbv beta zeta in Hcheck.
  repeat (apply andb_true_iff in Hcheck as [Hcheck ?]).
  cbv zeta.
  destruct (_ <=? 2)%Z; repeat split; lia.
Qed.

Lemma year_string_shape (y : Z) :
  (-999999 <= y <= 999999)%Z ->
  (String.length (Js.year_string y) = 4 /\ Spec.digits (Js.year_string y) = true)
  \/ (exists rest, (Js.year_string y = "+" +:+ rest \/ Js.year_string y = "-" +:+ rest)
                   /\ String.length rest = 6 /\ Spec.digits rest = true).
Proof.
  intros Hy. unfold Js.year_string.
  destruct (Z.leb_spec 0%Z y) as [Hpos|Hneg]; cbn [andb].
  - destruct (Z.leb_spec y 9999%Z) as [Hfour|Hsix].
    + left. destruct (padded_shape y 3) as [Hd Hl]; [|easy].
      change (10 ^ Z.of_nat 4)%Z with 10000%Z. lia.
    + right. destruct (Z.ltb_spec y 0%Z) as [|_]; [lia|].
      exists (Js.ToZeroPaddedDecimalString y 6).
      destruct (padded_shape y 5) as [Hd Hl]; [|now repeat split; auto].
      change (10 ^ Z.of_nat 6)%Z with 1000000%Z. lia.
  - right. destruct (Z.ltb_spec y 0%Z) as [_|]; [|lia].
    exists (Js.ToZeroPaddedDecimalString (- y) 6).
    destruct (padded_shape (- y) 5) as [Hd Hl]; [|now repeat split; auto].
    change (10 ^ Z.of_nat 6)%Z with 1000000%Z. lia.
Qed.

Lemma in_range_two (lo hi : nat) (n : Z) :
  (Z.of_nat lo <= n <= Z.of_nat hi)%Z -> (n < 100)%Z ->
  String.length (Js.ToZeroPaddedDecimalString n 2) = 2
  /\ Spec.in_range lo hi (Spec.two (Js.ToZeroPaddedDecimalString n 2)) = true.
Proof.
  intros Hn Hsmall. destruct (padded_two n) as [Hl Ht]; [lia|].
  split; [exact Hl|]. rewrite Ht. unfold Spec.in_range.
  apply andb_true_iff. rewrite !Nat.leb_le. lia.
Qed.

(** A year, a month, a day, an hour, a minute, a second and
    milliseconds of the right shapes, joined the way [toISOString] joins
    them, make an ISO 8601 date-time. *)
Lemma iso8601_assembled (year mo d h mi s ms : string) :
  (String.length year = 4 /\ Spec.digits year = true)
  \/ (exists rest, (year = "+" +:+ rest \/ year = "-" +:+ rest)
                   /\ String.length rest = 6 /\ Spec.digits rest = true) ->
  String.length mo = 2 /\ Spec.in_range 1 12 (Spec.two mo) = true ->
  String.length d = 2 /\ Spec.in_range 1 31 (Spec.two d) = true ->
  String.length h = 2 /\ Spec.in_range 0 23 (Spec.two h) = true ->
  String.length mi = 2 /\ Spec.in_range 0 59 (Spec.two mi) = true ->
  String.length s = 2 /\ Spec.in_range 0 59 (Spec.two s) = true ->
  String.length ms = 3 /\ Spec.digits ms = true ->
  Spec.iso8601_utc
    (year +:+ "-" +:+ mo +:+ "-" +:+ d +:+ "T" +:+ h +:+ ":" +:+ mi +:+ ":" +:+ s
     +:+ "." +:+ ms +:+ "Z") = true.
Proof.
  intros Hyear [Lmo Hmo] [Ld Hd] [Lh Hh] [Lmi Hmi] [Ls Hs] [Lms Hms].
  destruct (string_length_2 _ Lmo) as (mo1 & mo2 & ->).
  destruct (string_length_2 _ Ld) as (d1 & d2 & ->).
  destruct (string_length_2 _ Lh) as (h1 & h2 & ->).
  destruct (string_length_2 _ Lmi) as (mi1 & mi2 & ->).
  destruct (string_length_2 _ Ls) as (s1 & s2 & ->).
  destruct (string_length_3 _ Lms) as (f1 & f2 & f3 & ->).
  destruct Hyear as [[Ly Hy] | (rest & Hsign & Lr & Hr)].
  - destruct (string_length_4 _ Ly) as (y1 & y2 & y3 & y4 & ->).
    cbv -[Spec.two Spec.in_range Spec.digits Spec.digit].
    now rewrite Hy, Hmo, Hd, Hh, Hmi, Hs, Hms.
  - destruct (string_length_6 _ Lr) as (y1 & y2 & y3 & y4 & y5 & y6 & ->).
    destruct Hsign as [-> | ->];
      cbv -[Spec.two Spec.in_range Spec.digits Spec.digit];
      now rewrite Hr, Hmo, Hd, Hh, Hmi, Hs, Hms.
Qed.

(** Every time value is written by [toISOString] as an ISO 8601
    date-time in UTC. *)
Lemma toISOString_iso8601 (tv : Z) :
  Spec.time_value tv -> Spec.iso8601_utc (Js.toISOString tv) = true.
Proof.
  unfold Spec.time_value. intros Htv. unfold Js.toISOString.
  pose proof (civil_from_days_ranges (tv / Js.msPerDay)) as Hciv.
  destruct (Js.civil_from_days (tv / Js.msPerDay)) as [[y m] d].
  destruct Hciv as (Hm & Hd & Hy).
  assert (0 <= tv mod Js.msPerDay < 86400000)%Z as Ht
      by (apply Z.mod_pos_bound; reflexivity).
  set (t := (tv mod Js.msPerDay)%Z) in *. clearbody t.
  unfold Js.msPerDay in Hy.
  apply iso8601_assembled.
  - apply year_string_shape. clear Hm Hd Ht. Z.div_mod_to_equations. lia.
  - apply in_range_two; cbn; lia.
  - apply in_range_two; cbn; lia.
  - apply in_range_two; cbn [Z.of_nat]; [|Z.div_mod_to_equations; lia].
    Z.div_mod_to_equations. lia.
  - apply in_range_two; cbn [Z.of_nat]; [|Z.div_mod_to_equations; lia].
    Z.div_mod_to_equations. lia.
  - apply in_range_two; cbn [Z.of_nat]; [|Z.div_mod_to_equations; lia].
    Z.div_mod_to_equations. lia.
  - destruct (padded_shape (t mod 1000) 2) as [Hdig Hlen]; [|now split].
    change (10 ^ Z.of_nat 3)%Z with 1000%Z. apply Z.mod_pos_bound. lia.
Qed.

(** ** What is sent *)

Section Sent.

Context `{StringFormats}.

Lemma parseErrorSchema_nonempty (issue : string * ZodIssue)
      (issues : list (string * ZodIssue)) :
  parseErrorSchema (issue :: issues) <> ∅.
Proof.
  intros E. assert (parseErrorSchema (issue :: issues) !! issue.1 = None) as Hnone
      by now rewrite E.
  rewrite parseErrorSchema_lookup in Hnone. destruct issue as [path i].
  cbn in Hnone. now destruct (decide (path = path)).
Qed.

(** When the values validate, the data handed to [onSubmit] holds under
    each key of the schema what that key's schema made of the form
    value. *)
Lemma resolver_values (v : Variant) (formValues : gmap string string) (key : string) :
  validate v formValues = ∅ ->
  values (zodResolver (researchFormSchema v) formValues) !! key
  = schema ← assoc key (researchFormSchema v); parsed_value (parse schema (formValues !! key)).
Proof.
  unfold validate, zodResolver, safeParse. intros Hvalid.
  rewrite <- (parse_object_out _ _ _ (schema_keys_NoDup v)).
  destruct (parse_object (researchFormSchema v) formValues) as [[|issue issues] out];
    [reflexivity|].
  now apply parseErrorSchema_nonempty in Hvalid.
Qed.

Lemma text_value (required too_long : string) (hi : nat) (input : option string) :
  field_error (text required too_long hi) input = None ->
  exists s, input = Some s
            /\ parsed_value (parse (text required too_long hi) input) = Some (trim s).
Proof.
  rewrite field_error_text. destruct input as [s|]; [|discriminate].
  intros _. exists s. split; [reflexivity | apply parse_text].
Qed.

Lemma email_value (input : option string) :
  field_error email_schema input = None ->
  exists s, input = Some s /\ parsed_value (parse email_schema input) = Some (trim s).
Proof.
  rewrite field_error_email. destruct input as [s|]; [|discriminate].
  intros _. exists s. split; [reflexivity | apply parse_email].
Qed.

(** The four text values of a valid form, and the data made of them. *)
Lemma valid_data (v : Variant) (formValues : gmap string string) :
  validate v formValues = ∅ ->
  exists name phone email topic,
    formValues !! "name" = Some name
    /\ formValues !! "phone" = Some phone
    /\ formValues !! "email" = Some email
    /\ formValues !! "researchTopic" = Some topic
    /\ let data := values (zodResolver (researchFormSchema v) formValues) in
       data !! "name" = Some (trim name)
       /\ data !! "phone" = Some (trim phone)
       /\ data !! "email" = Some (trim email)
       /\ data !! "researchTopic" = Some (trim topic).
Proof.
  intros Hvalid.
  assert (forall key, validate v formValues !! key = None) as Hnone
      by (intros key; now rewrite Hvalid).
  pose proof (Hnone "name") as Hn. rewrite validate_name in Hn.
  pose proof (Hnone "phone") as Hp. rewrite validate_phone in Hp.
  pose proof (Hnone "email") as He. rewrite validate_email in He.
  pose proof (Hnone "researchTopic") as Ht. rewrite validate_researchTopic in Ht.
  destruct (text_value _ _ _ _ Hn) as (name & En & Vn).
  destruct (text_value _ _ _ _ Hp) as (phone & Ep & Vp).
  destruct (email_value _ He) as (email & Ee & Ve).
  destruct (text_value _ _ _ _ Ht) as (topic & Et & Vt).
  exists name, phone, email, topic. repeat split; try assumption; cbv zeta.
  - now rewrite (resolver_values v formValues "name" Hvalid), assoc_name.
  - now rewrite (resolver_values v formValues "phone" Hvalid), assoc_phone.
  - now rewrite (resolver_values v formValues "email" Hvalid), assoc_email.
  - now rewrite (resolver_values v formValues "researchTopic" Hvalid), assoc_researchTopic.
Qed.

End Sent.

(** C8, as the code has it: when the values validate, the submission
    sends one POST with content type [application/json] whose body is
    the JSON text of an object with five keys: [name], [phone]
    ([contact] in the copy with the fixed endpoint), [email],
    [researchTopic], holding the trimmed form values, and [timestamp],
    holding the ISO 8601 UTC text of the time of the call.  The schema's
    [submissionUrl] field is not among the keys. *)
Theorem C8_post_body `{StringFormats} (v : Variant) (props : ResearchFormProps)
        (now : Z) (reply : FetchReply) (st : FormState) :
  validate v (fieldValues st) = ∅ ->
  Spec.time_value now ->
  exists name phone email topic target,
    fieldValues st !! "name" = Some name
    /\ fieldValues st !! "phone" = Some phone
    /\ fieldValues st !! "email" = Some email
    /\ fieldValues st !! "researchTopic" = Some topic
    /\ requests (handleSubmit v (fun data => onSubmit v props data now reply) st).2
       = requests st
         ++ [ {| url := target;
                 method := "POST";
                 headers := [("Content-Type", "application/json")];
                 body :=
                   Js.JSON_stringify
                     [ ("name", Some (trim name));
                       (match v with UserEndpoint => "phone" | FixedEndpoint => "contact" end,
                        Some (trim phone));
                       ("email", Some (trim email));
                       ("researchTopic", Some (trim topic));
                       ("timestamp", Some (Js.toISOString now)) ] |} ]
    /\ Spec.iso8601_utc (Js.toISOString now) = true.
Proof.
  intros Hvalid Hnow.
  destruct (valid_data v (fieldValues st) Hvalid)
    as (name & phone & email & topic & En & Ep & Ee & Et & Dn & Dp & De & Dt).
  exists name, phone, email, topic,
    (endpoint v props (values (zodResolver (researchFormSchema v) (fieldValues st)))).
  repeat split; try assumption; [|now apply toISOString_iso8601].
  rewrite (handleSubmit_valid v _ st Hvalid).
  unfold mbind, Action_bind, setErrors. rewrite onSubmit_requests.
  cbn [requests]. unfold request, payload. now rewrite Dn, Dp, De, Dt.
Qed.

Lemma C8_post_body_witness :
  map body
      (requests
         (@handleSubmit Zod3.formats FixedEndpoint
            (fun data => onSubmit FixedEndpoint defaultProps data 1709210096789 (Resolved 201))
            (component (filled_page FixedEndpoint))).2)
  = [ Js.JSON_stringify
        [ ("name", Some "Jane Doe"); ("contact", Some "555-1234");
          ("email", Some "jane@x.edu"); ("researchTopic", Some "AI ethics");
          ("timestamp", Some "2024-02-29T12:34:56.789Z") ] ].
Proof.
  destruct (@C8_post_body Zod3.formats FixedEndpoint defaultProps 1709210096789
              (Resolved 201) (component (filled_page FixedEndpoint)))
    as (name & phone & email & topic & target & En & Ep & Ee & Et & Hreq & _).
  - vm_compute. reflexivity.
  - unfold Spec.time_value. lia.
  - rewrite Hreq.
    assert (name = "Jane Doe") as -> by (vm_compute in En; congruence).
    assert (phone = "555-1234") as -> by (vm_compute in Ep; congruence).
    assert (email = "jane@x.edu") as -> by (vm_compute in Ee; congruence).
    assert (topic = "AI ethics") as -> by (vm_compute in Et; congruence).
    vm_compute. reflexivity.
Defined.

(** C8 as the spec words it fails in the copy with the endpoint field:
    the schema has the field [submissionUrl], the body sent for
    scenario A has no such key. *)
Lemma C8_counterexample :
  map fst (researchFormSchema UserEndpoint)
  = ["name"; "phone"; "email"; "researchTopic"; "submissionUrl"]
  /\ map body
         (requests
            (component
               (@dispatch Zod3.formats UserEndpoint defaultProps (Submit 0)
                          (filled_page UserEndpoint))))
     = [ Js.JSON_stringify
           [ ("name", Some "Jane Doe"); ("phone", Some "555-1234");
             ("email", Some "jane@x.edu"); ("researchTopic", Some "AI ethics");
             ("timestamp", Some "1970-01-01T00:00:00.000Z") ] ]
  /\ map fst (payload UserEndpoint (fieldValues (component (filled_page UserEndpoint))) 0)
     <> map fst (researchFormSchema UserEndpoint) ++ ["timestamp"].
Proof.
  split; [reflexivity|]. split; [vm_compute; reflexivity|].
  vm_compute. discriminate.
Qed.

(** ** The spec's scenarios, run *)

(** Scenario A in the copy without the endpoint field: HTTP 201 ends in
    Succeeded with every value empty and one request sent. *)
Example scenario_A :
  let after :=
    component (@dispatch_all Zod3.formats FixedEndpoint defaultProps
                 [Submit 0; Settle (Resolved 201)] (filled_page FixedEndpoint)) in
  submissionState after = Succeeded
  /\ fieldValues after = defaultValues FixedEndpoint
  /\ toasts after = [successToast FixedEndpoint]
  /\ map url (requests after) = [placeholderUrl].
Proof. cbv zeta. repeat split; vm_compute; reflexivity. Qed.

(** Scenario B: HTTP 500 ends in Idle with the values kept and the
    error toast shown. *)
Example scenario_B :
  let before := component (filled_page FixedEndpoint) in
  let after :=
    component (@dispatch_all Zod3.formats FixedEndpoint defaultProps
                 [Submit 0; Settle (Resolved 500)] (filled_page FixedEndpoint)) in
  submissionState after = Idle
  /\ fieldValues after = fieldValues before
  /\ toasts after = [errorToast FixedEndpoint]
  /\ length (requests after) = 1.
Proof. cbv zeta. repeat split; vm_compute; reflexivity. Qed.

(** Scenario C: with the name empty the submit is refused, the name
    gets an error and nothing is sent. *)
Example scenario_C :
  let after :=
    component (@dispatch_all Zod3.formats FixedEndpoint defaultProps
                 [Change "name" EmptyString; Submit 0] (filled_page FixedEndpoint)) in
  fieldErrors after = {[ "name" := "Name is required" ]}
  /\ requests after = []
  /\ submissionState after = Idle.
Proof. cbv zeta. repeat split; vm_compute; reflexivity. Qed.

(** While the first request is in flight a second submit sends
    nothing; once it has failed, the next submit sends again. *)
Example resubmit_after_failure :
  map (fun events =>
         length (requests (component
                   (@dispatch_all Zod3.formats FixedEndpoint defaultProps events
                      (filled_page FixedEndpoint)))))
      [ [Submit 0; Submit 1];
        [Submit 0; Settle (Rejected "offline"); Submit 1] ]
  = [1; 2].
Proof. vm_compute. reflexivity. Qed.

(** * Further properties of the schema *)

Section SchemaMore.

Context `{StringFormats}.

Lemma assoc_outside (v : Variant) (key : string) :
  key ∉ inputs v -> assoc key (researchFormSchema v) = None.
Proof. intros Hnot. now apply assoc_None. Qed.

Lemma resolver_values_outside (v : Variant) (formValues : gmap string string)
      (key : string) :
  key ∉ inputs v ->
  values (zodResolver (researchFormSchema v) formValues) !! key = None.
Proof.
  intros Hnot. unfold zodResolver, safeParse.
  pose proof (parse_object_out (researchFormSchema v) formValues key
                (schema_keys_NoDup v)) as Hout.
  rewrite (assoc_outside v key Hnot) in Hout.
  destruct (parse_object (researchFormSchema v) formValues) as [[|issue issues] out];
    [exact Hout | apply lookup_empty].
Qed.

Lemma valid_parts (v : Variant) (formValues : gmap string string) :
  Spec.valid v formValues = true
  <-> Spec.text_ok "name" (formValues !! "name") = true
      /\ Spec.text_ok "phone" (formValues !! "phone") = true
      /\ Spec.email_ok (formValues !! "email") = true
      /\ Spec.text_ok "researchTopic" (formValues !! "researchTopic") = true
      /\ match v with
         | UserEndpoint => Spec.url_ok (formValues !! "submissionUrl") = true
         | FixedEndpoint => True
         end.
Proof.
  unfold Spec.valid, Spec.all_fields. cbn [forallb].
  change (Spec.field_ok v formValues "name") with (Spec.text_ok "name" (formValues !! "name")).
  change (Spec.field_ok v formValues "phone") with (Spec.text_ok "phone" (formValues !! "phone")).
  change (Spec.field_ok v formValues "email") with (Spec.email_ok (formValues !! "email")).
  change (Spec.field_ok v formValues "researchTopic")
    with (Spec.text_ok "researchTopic" (formValues !! "researchTopic")).
  change (Spec.field_ok v formValues "submissionUrl")
    with (match v with
          | UserEndpoint => Spec.url_ok (formValues !! "submissionUrl")
          | FixedEndpoint => true
          end).
  rewrite !andb_true_iff. destruct v; intuition.
Qed.

Lemma text_ok_trimmed (key : string) (s : string) :
  Spec.text_ok key (Some (trim s)) = Spec.text_ok key (Some s).
Proof. unfold Spec.text_ok. now rewrite trim_idem. Qed.

Lemma email_ok_trimmed (s : string) :
  Spec.email_ok (Some (trim s)) = Spec.email_ok (Some s).
Proof. unfold Spec.email_ok. now rewrite trim_idem. Qed.

(** The endpoint value of valid form values goes through unchanged. *)
Lemma url_value (v : Variant) (formValues : gmap string string) :
  validate v formValues = ∅ ->
  match v with
  | UserEndpoint =>
      values (zodResolver (researchFormSchema v) formValues) !! "submissionUrl"
      = formValues !! "submissionUrl"
  | FixedEndpoint =>
      values (zodResolver (researchFormSchema v) formValues) !! "submissionUrl" = None
  end.
Proof.
  intros Hvalid. rewrite (resolver_values v formValues "submissionUrl" Hvalid).
  rewrite assoc_submissionUrl. destruct v; [|reflexivity]. cbn [mbind option_bind].
  assert (validate UserEndpoint formValues !! "submissionUrl" = None) as Hnone
      by now rewrite Hvalid.
  rewrite validate_submissionUrl, field_error_url in Hnone.
  destruct (formValues !! "submissionUrl") as [[|c rest]|].
  - now rewrite parse_url_empty.
  - rewrite parse_url_given by discriminate.
    now destruct (is_url (String c rest)).
  - reflexivity.
Qed.

(** The data the resolver makes of valid values are valid again. *)
Lemma valid_data_valid (v : Variant) (formValues : gmap string string) :
  validate v formValues = ∅ ->
  Spec.valid v (values (zodResolver (researchFormSchema v) formValues)) = true.
Proof.
  intros Hvalid.
  pose proof (proj1 (validate_empty_iff v formValues) Hvalid) as Hok.
  apply valid_parts in Hok as (Hn & Hp & He & Ht & Hu).
  destruct (valid_data v formValues Hvalid)
    as (name & phone & email & topic & En & Ep & Ee & Et & Dn & Dp & De & Dt).
  pose proof (url_value v formValues Hvalid) as Du.
  apply valid_parts. rewrite Dn, Dp, De, Dt.
  rewrite !text_ok_trimmed, email_ok_trimmed, <- En, <- Ep, <- Ee, <- Et.
  repeat split; try assumption.
  destruct v; [now rewrite Du | exact I].
Qed.

End SchemaMore.

Lemma not_an_input (v : Variant) (key : string) :
  key <> "name" -> key <> "phone" -> key <> "email" -> key <> "researchTopic" ->
  key <> "submissionUrl" -> key ∉ inputs v.
Proof.
  intros Hn Hp He Ht Hu Hin. unfold inputs in Hin.
  destruct v; cbn in Hin;
    repeat (apply elem_of_cons in Hin as [->|Hin]; [contradiction|]);
    now apply elem_of_nil in Hin.
Qed.

(** X1: the entry of a field depends on that field's value alone:
    writing or removing the value of one field leaves the entries of all
    other fields as they were. *)
Theorem X1_fields_validated_independently `{StringFormats} (v : Variant)
        (formValues : gmap string string) (key other : string) (s : string) :
  key <> other ->
  validate v (<[key := s]> formValues) !! other = validate v formValues !! other
  /\ validate v (delete key formValues) !! other = validate v formValues !! other.
Proof.
  intros Hne. rewrite !validate_lookup.
  now rewrite (lookup_insert_ne _ _ _ _ Hne), (lookup_delete_ne _ _ _ Hne).
Qed.

Lemma X1_fields_validated_independently_witness :
  @validate Zod3.formats FixedEndpoint (<["phone" := EmptyString]> scenario_values) !! "name"
  = @validate Zod3.formats FixedEndpoint scenario_values !! "name".
Proof.
  apply (@X1_fields_validated_independently Zod3.formats FixedEndpoint scenario_values
           "phone" "name" EmptyString).
  discriminate.
Defined.

(** X2: a key that is not a field of the schema never gets an error and
    never reaches the data handed to [onSubmit], whatever the form
    values hold under it. *)
Theorem X2_only_schema_keys `{StringFormats} (v : Variant)
        (formValues : gmap string string) (key : string) :
  key ∉ inputs v ->
  validate v formValues !! key = None
  /\ values (zodResolver (researchFormSchema v) formValues) !! key = None.
Proof.
  intros Hnot. split.
  - now rewrite validate_lookup, (assoc_outside v key Hnot).
  - now apply resolver_values_outside.
Qed.

Lemma X2_only_schema_keys_witness :
  @validate Zod3.formats FixedEndpoint (<["submissionUrl" := "nowhere"]> scenario_values)
  !! "submissionUrl" = None
  /\ values (@zodResolver Zod3.formats (researchFormSchema FixedEndpoint)
               (<["submissionUrl" := "nowhere"]> scenario_values))
     !! "submissionUrl" = None.
Proof.
  apply (@X2_only_schema_keys Zod3.formats FixedEndpoint).
  apply (bool_decide_unpack _). vm_compute. reflexivity.
Defined.

(** X3: the name, phone and research-topic fields each carry two
    messages in the schema.  An absent value is reported as "Required";
    a value empty once trimmed gets the field's first message; a trimmed
    value of up to the bound, the bound included, passes; a longer one
    gets the second message. *)
Theorem X3_text_field_messages `{StringFormats} (v : Variant)
        (formValues : gmap string string) (key : string) :
  key ∈ ["name"; "phone"; "researchTopic"] ->
  exists required too_long,
    (key, text required too_long (Spec.max_length key)) ∈ researchFormSchema v
    /\ validate v formValues !! key
       = match formValues !! key with
         | None => Some "Required"
         | Some s =>
             if (String.length (trim s) =? 0)%nat then Some required
             else if (String.length (trim s) <=? Spec.max_length key)%nat then None
                  else Some too_long
         end.
Proof.
  assert (forall required too_long hi input,
             field_error (text required too_long hi) input
             = match input with
               | None => Some "Required"
               | Some s =>
                   if (String.length (trim s) =? 0)%nat then Some required
                   else if (String.length (trim s) <=? hi)%nat then None
                        else Some too_long
               end) as Hform.
  { intros required too_long hi [s|]; rewrite field_error_text; [|reflexivity].
    destruct (Nat.ltb_spec (String.length (trim s)) 1),
             (Nat.eqb_spec (String.length (trim s)) 0); try lia; [reflexivity|].
    destruct (Nat.ltb_spec hi (String.length (trim s))),
             (Nat.leb_spec (String.length (trim s)) hi); try lia; reflexivity. }
  intros Hin. repeat (apply elem_of_cons in Hin as [->|Hin]); [..|now apply elem_of_nil in Hin].
  - eexists _, _. split; [|rewrite validate_name; apply Hform].
    destruct v; cbn; rewrite !elem_of_cons; auto.
  - eexists _, _. split; [|rewrite validate_phone; apply Hform].
    destruct v; cbn; rewrite !elem_of_cons; auto.
  - eexists _, _. split; [|rewrite validate_researchTopic; apply Hform].
    destruct v; cbn; rewrite !elem_of_cons; auto 10.
Qed.

Lemma X3_text_field_messages_witness :
  exists required too_long,
    ("phone", text required too_long 20) ∈ researchFormSchema FixedEndpoint
    /\ @validate Zod3.formats FixedEndpoint
         (<["phone" := "+49 (0) 89 1234 5678 - 90"]> scenario_values) !! "phone"
       = Some too_long.
Proof.
  destruct (@X3_text_field_messages Zod3.formats FixedEndpoint
              (<["phone" := "+49 (0) 89 1234 5678 - 90"]> scenario_values) "phone")
    as (required & too_long & Hin & Hmsg).
  - rewrite !elem_of_cons. auto.
  - exists required, too_long. split; [exact Hin|]. rewrite Hmsg. reflexivity.
Defined.

(** X4: the email field reports one message at a time, the format
    first: an absent value is "Required"; a trimmed value that is not an
    email address is "Invalid email address" however long it is; an
    email address of more than 255 characters gets the length message;
    one of up to 255 characters passes. *)
Theorem X4_email_messages `{StringFormats} (v : Variant)
        (formValues : gmap string string) :
  validate v formValues !! "email"
  = match formValues !! "email" with
    | None => Some "Required"
    | Some s =>
        if negb (is_email (trim s)) then Some "Invalid email address"
        else if (String.length (trim s) <=? 255)%nat then None
             else Some "Email must be less than 255 characters"
    end.
Proof.
  rewrite validate_email, field_error_email.
  destruct (formValues !! "email") as [s|]; [|reflexivity].
  destruct (is_email (trim s)); [|reflexivity]. cbn [negb].
  destruct (Nat.ltb_spec 255 (String.length (trim s))),
           (Nat.leb_spec (String.length (trim s)) 255); try lia; reflexivity.
Qed.

(** X5: validating is idempotent on its own output: the data the
    resolver makes of valid form values validate again, and validating
    them yields the same data. *)
Theorem X5_valid_data_is_fixed_point `{StringFormats} (v : Variant)
        (formValues : gmap string string) :
  validate v formValues = ∅ ->
  let data := values (zodResolver (researchFormSchema v) formValues) in
  validate v data = ∅
  /\ values (zodResolver (researchFormSchema v) data) = data.
Proof.
  intros Hvalid. cbv zeta.
  set (data := values (zodResolver (researchFormSchema v) formValues)).
  assert (validate v data = ∅) as Hvalid'
      by (apply validate_empty_iff; now apply valid_data_valid).
  split; [exact Hvalid'|].
  destruct (valid_data v formValues Hvalid)
    as (name & phone & email & topic & _ & _ & _ & _ & Dn & Dp & De & Dt).
  destruct (valid_data v data Hvalid')
    as (name' & phone' & email' & topic' & En & Ep & Ee & Et & Dn' & Dp' & De' & Dt').
  cbv zeta in Dn, Dp, De, Dt, Dn', Dp', De', Dt'. fold data in Dn, Dp, De, Dt.
  pose proof (url_value v formValues Hvalid) as Du.
  pose proof (url_value v data Hvalid') as Du'. fold data in Du.
  apply map_eq. intros key.
  destruct (decide (key = "name")) as [->|Hn].
  { rewrite Dn', Dn. rewrite Dn in En. injection En as <-. now rewrite trim_idem. }
  destruct (decide (key = "phone")) as [->|Hp].
  { rewrite Dp', Dp. rewrite Dp in Ep. injection Ep as <-. now rewrite trim_idem. }
  destruct (decide (key = "email")) as [->|He].
  { rewrite De', De. rewrite De in Ee. injection Ee as <-. now rewrite trim_idem. }
  destruct (decide (key = "researchTopic")) as [->|Ht].
  { rewrite Dt', Dt. rewrite Dt in Et. injection Et as <-. now rewrite trim_idem. }
  destruct (decide (key = "submissionUrl")) as [->|Hu].
  { clearbody data. destruct v; [exact Du' | now rewrite Du', Du]. }
  rewrite (resolver_values_outside v data key) by now apply not_an_input.
  unfold data. now rewrite resolver_values_outside by now apply not_an_input.
Qed.

Lemma X5_valid_data_is_fixed_point_witness :
  values (@zodResolver Zod3.formats (researchFormSchema FixedEndpoint)
            (values (@zodResolver Zod3.formats (researchFormSchema FixedEndpoint)
                       (<["name" := "  Jane Doe  "]> scenario_values))))
  = values (@zodResolver Zod3.formats (researchFormSchema FixedEndpoint)
              (<["name" := "  Jane Doe  "]> scenario_values)).
Proof.
  apply (@X5_valid_data_is_fixed_point Zod3.formats FixedEndpoint
           (<["name" := "  Jane Doe  "]> scenario_values)).
  vm_compute. reflexivity.
Defined.

(** * Further properties of submission and of the page *)

Lemma success_or_failure (reply : FetchReply) :
  Spec.failure reply \/ exists status, reply = Resolved status /\ ok status = true.
Proof.
  destruct reply as [status|reason]; [|now left].
  destruct (ok status) eqn:Hok; [right; now exists status|].
  left. cbn. rewrite <- ok_iff. congruence.
Qed.

Lemma failure_not_ok (status : Z) : Spec.failure (Resolved status) -> ok status = false.
Proof.
  cbn. rewrite <- ok_iff. now destruct (ok status).
Qed.

Lemma resume_success (v : Variant) (status : Z) (st : FormState) :
  ok status = true ->
  onSubmit_resume v (Resolved status) st
  = (Normal (),
     {| isSubmitting := false;
        isSubmitted := true;
        fieldValues := defaultValues v;
        fieldErrors := ∅;
        toasts := toasts st ++ [successToast v];
        requests := requests st |}).
Proof. intros Hok. run_action. now rewrite Hok. Qed.

Lemma resume_failure (v : Variant) (reply : FetchReply) (st : FormState) :
  Spec.failure reply ->
  onSubmit_resume v reply st
  = (Normal (),
     {| isSubmitting := false;
        isSubmitted := isSubmitted st;
        fieldValues := fieldValues st;
        fieldErrors := fieldErrors st;
        toasts := toasts st ++ [errorToast v];
        requests := requests st |}).
Proof.
  intros Hfail. destruct reply as [status|reason]; run_action; [|reflexivity].
  now rewrite (failure_not_ok status Hfail).
Qed.

(** X6: of the reply, [onSubmit] uses only whether it is a success: two
    replies that are both failures (any status outside [200,300), any
    rejection) or both successes leave the same state, toast included. *)
Theorem X6_only_success_or_failure_matters (v : Variant) (props : ResearchFormProps)
        (data : gmap string string) (now : Z) (first second : FetchReply)
        (st : FormState) :
  (Spec.failure first <-> Spec.failure second) ->
  onSubmit v props data now first st = onSubmit v props data now second st.
Proof.
  intros Hsame.
  destruct (success_or_failure first) as [Hf | (s1 & -> & Hok1)].
  - now rewrite !onSubmit_failure by tauto.
  - destruct (success_or_failure second) as [Hs | (s2 & -> & Hok2)].
    + apply Hsame in Hs. apply failure_not_ok in Hs. congruence.
    + now rewrite !onSubmit_success.
Qed.

Lemma X6_only_success_or_failure_matters_witness :
  onSubmit FixedEndpoint defaultProps scenario_values 0 (Resolved 500)
           (initialState FixedEndpoint)
  = onSubmit FixedEndpoint defaultProps scenario_values 0 (Rejected "offline")
             (initialState FixedEndpoint).
Proof.
  apply X6_only_success_or_failure_matters. cbn. split; [easy | intros _; lia].
Defined.

Section PageMore.

Context `{StringFormats}.
Variable v : Variant.
Variable props : ResearchFormProps.

Lemma visitor_event_frozen (e : Event) (p : Page) :
  from_visitor e = true ->
  isSubmitting (component p) = true ->
  fieldValues (component (dispatch v props e p)) = fieldValues (component p)
  /\ fieldErrors (component (dispatch v props e p)) = fieldErrors (component p)
  /\ toasts (component (dispatch v props e p)) = toasts (component p).
Proof.
  intros Hvisitor Hbusy. destruct e as [now|name value| |reply]; [..|discriminate];
    unfold dispatch, render; rewrite Hbusy;
    destruct (negb (default true (show props))); try easy;
    now destruct (isSubmitted (component p)).
Qed.

Lemma hidden_event (e : Event) (p : Page) :
  show props = Some false -> from_visitor e = true -> dispatch v props e p = p.
Proof.
  intros Hhidden Hvisitor.
  destruct e as [now|name value| |reply]; [..|discriminate];
    unfold dispatch, render; now rewrite Hhidden.
Qed.

Lemma invariant_initially : page_invariant v props (initialPage v).
Proof.
  unfold page_invariant, flag_tracks_requests. cbn.
  split; [discriminate|]. repeat split; constructor.
Qed.

Lemma submit_valid_state (now : Z) (st : FormState) :
  validate v (fieldValues st) = ∅ ->
  (handleSubmit v (fun data => onSubmit_begin v props data now) st).2
  = {| isSubmitting := true;
       isSubmitted := isSubmitted st;
       fieldValues := fieldValues st;
       fieldErrors := ∅;
       toasts := toasts st;
       requests :=
         requests st
         ++ [request v props
               (values (zodResolver (researchFormSchema v) (fieldValues st))) now] |}.
Proof. intros Hvalid. now rewrite (handleSubmit_valid v _ st Hvalid). Qed.

Lemma submit_invalid_state (now : Z) (st : FormState) :
  validate v (fieldValues st) <> ∅ ->
  (handleSubmit v (fun data => onSubmit_begin v props data now) st).2
  = {| isSubmitting := isSubmitting st;
       isSubmitted := isSubmitted st;
       fieldValues := fieldValues st;
       fieldErrors := validate v (fieldValues st);
       toasts := toasts st;
       requests := requests st |}.
Proof. intros Hbad. now rewrite (handleSubmit_invalid v _ st Hbad). Qed.

Ltac page_fields :=
  unfold page_invariant, flag_tracks_requests;
  cbn [component settled isSubmitting isSubmitted fieldValues fieldErrors toasts requests
       fst snd].

Lemma dispatch_keeps_page_invariant (e : Event) (p : Page) :
  page_invariant v props p -> page_invariant v props (dispatch v props e p).
Proof.
  intros Hinv. pose proof Hinv as (Hcard & Htoasts & Hkinds & Hsent & Hflag).
  unfold flag_tracks_requests in Hflag.
  destruct e as [now|name value| |reply]; unfold dispatch, render.
  - destruct (negb (default true (show props))); [exact Hinv|].
    destruct (isSubmitted (component p)) eqn:Hdone; [exact Hinv|].
    destruct (isSubmitting (component p)) eqn:Hbusy; [exact Hinv|].
    unfold run. cbn [component settled].
    destruct (decide (validate v (fieldValues (component p)) = ∅)) as [Hvalid|Hbad].
    + rewrite (submit_valid_state now _ Hvalid). page_fields. rewrite Hdone.
      split; [discriminate|]. split; [exact Htoasts|]. split; [exact Hkinds|]. split.
      * apply Forall_app. split; [exact Hsent|]. constructor; [|constructor].
        exists (values (zodResolver (researchFormSchema v) (fieldValues (component p)))), now.
        split; [reflexivity | now apply valid_data_valid].
      * rewrite length_app. cbn [length]. lia.
    + rewrite (submit_invalid_state now _ Hbad). page_fields. rewrite Hdone, Hbusy.
      split; [discriminate|]. now repeat split.
  - destruct (negb (default true (show props))); [exact Hinv|].
    destruct (isSubmitted (component p)) eqn:Hdone; [exact Hinv|].
    destruct (isSubmitting (component p)) eqn:Hbusy; [exact Hinv|].
    destruct (decide (name ∈ inputs v)); [|exact Hinv].
    unfold run, setValue. page_fields. rewrite Hdone, Hbusy.
    split; [discriminate|]. now repeat split.
  - destruct (negb (default true (show props))); [exact Hinv|].
    destruct (isSubmitted (component p)) eqn:Hdone; [|exact Hinv].
    unfold run, setIsSubmitted. page_fields.
    split; [discriminate|]. now repeat split.
  - destruct (decide (settled p < length (requests (component p)))) as [Hlt|]; [|exact Hinv].
    assert (isSubmitting (component p) = true) as Hbusy
        by (destruct (isSubmitting (component p)); [reflexivity | lia]).
    rewrite Hbusy in Hflag.
    destruct (success_or_failure reply) as [Hfail | (status & -> & Hok)].
    + rewrite (resume_failure v reply _ Hfail). page_fields.
      split; [|split; [|split; [|split]]].
      * intros Hdone. destruct (Hcard Hdone) as (Hidle & _). congruence.
      * rewrite length_app. cbn [length]. lia.
      * apply Forall_app. split; [exact Hkinds|]. constructor; [now right | constructor].
      * exact Hsent.
      * lia.
    + rewrite (resume_success v status _ Hok). page_fields.
      split; [|split; [|split; [|split]]].
      * now intros _.
      * rewrite length_app. cbn [length]. lia.
      * apply Forall_app. split; [exact Hkinds|]. constructor; [now left | constructor].
      * exact Hsent.
      * lia.
Qed.

Lemma reachable_invariant (p : Page) : reachable v props p -> page_invariant v props p.
Proof.
  intros [events ->]. unfold dispatch_all.
  pose proof invariant_initially as Hinit. revert Hinit. generalize (initialPage v).
  induction events as [|e events IH]; intros p Hinv; [exact Hinv|].
  cbn [fold_left]. apply IH. now apply dispatch_keeps_page_invariant.
Qed.

End PageMore.

Section PageSteps.

Context `{StringFormats}.
Variable v : Variant.
Variable props : ResearchFormProps.

Lemma render_form_idle (st : FormState) :
  render props st = FormView false
  <-> default true (show props) = true /\ isSubmitted st = false /\ isSubmitting st = false.
Proof.
  unfold render.
  destruct (default true (show props)), (isSubmitted st), (isSubmitting st);
    cbn [negb]; split; intros Hyp; try discriminate Hyp; try (now repeat split);
    destruct Hyp as (E1 & E2 & E3); discriminate.
Qed.

Lemma render_confirmation (st : FormState) :
  render props st = Confirmation
  <-> default true (show props) = true /\ isSubmitted st = true.
Proof.
  unfold render.
  destruct (default true (show props)), (isSubmitted st);
    cbn [negb]; split; intros Hyp; try discriminate Hyp; try (now repeat split);
    destruct Hyp as (E1 & E2); discriminate.
Qed.

Lemma dispatch_submit_valid (now : Z) (p : Page) :
  render props (component p) = FormView false ->
  validate v (fieldValues (component p)) = ∅ ->
  dispatch v props (Submit now) p
  = {| component :=
         {| isSubmitting := true;
            isSubmitted := false;
            fieldValues := fieldValues (component p);
            fieldErrors := ∅;
            toasts := toasts (component p);
            requests :=
              requests (component p)
              ++ [request v props
                    (values (zodResolver (researchFormSchema v)
                               (fieldValues (component p)))) now] |};
       settled := settled p |}.
Proof.
  intros Hform Hvalid. unfold dispatch. rewrite Hform. unfold run.
  rewrite (submit_valid_state v props now _ Hvalid).
  apply render_form_idle in Hform as (_ & -> & _). reflexivity.
Qed.

Lemma dispatch_settle_failure (reply : FetchReply) (p : Page) :
  settled p < length (requests (component p)) ->
  Spec.failure reply ->
  dispatch v props (Settle reply) p
  = {| component :=
         {| isSubmitting := false;
            isSubmitted := isSubmitted (component p);
            fieldValues := fieldValues (component p);
            fieldErrors := fieldErrors (component p);
            toasts := toasts (component p) ++ [errorToast v];
            requests := requests (component p) |};
       settled := S (settled p) |}.
Proof.
  intros Hlt Hfail. unfold dispatch.
  destruct (decide (settled p < length (requests (component p)))); [|contradiction].
  now rewrite (resume_failure v reply _ Hfail).
Qed.

End PageSteps.

(** X7: while [isSubmitting] holds the inputs are disabled: no sequence
    of visitor events changes a form value, an error or the toasts. *)
Theorem X7_no_edits_while_submitting `{StringFormats} (v : Variant)
        (props : ResearchFormProps) (events : list Event) (p : Page) :
  isSubmitting (component p) = true ->
  forallb from_visitor events = true ->
  fieldValues (component (dispatch_all v props events p)) = fieldValues (component p)
  /\ fieldErrors (component (dispatch_all v props events p)) = fieldErrors (component p)
  /\ toasts (component (dispatch_all v props events p)) = toasts (component p).
Proof.
  intros Hbusy Hvisitors. unfold dispatch_all. revert p Hbusy.
  induction events as [|e events IH]; intros p Hbusy; [easy|].
  cbn [forallb] in Hvisitors. apply andb_true_iff in Hvisitors as [He Hrest].
  destruct (visitor_event_while_submitting v props e p He Hbusy) as (_ & Hflag & _).
  destruct (visitor_event_frozen v props e p He Hbusy) as (Hv & He' & Ht).
  cbn [fold_left]. destruct (IH Hrest _ Hflag) as (Hv' & He'' & Ht').
  repeat split; congruence.
Qed.

Lemma X7_no_edits_while_submitting_witness :
  fieldValues
    (component
       (@dispatch_all Zod3.formats FixedEndpoint defaultProps
          [Change "name" "Someone Else"; Change "email" EmptyString]
          (@dispatch Zod3.formats FixedEndpoint defaultProps (Submit 0)
                     (filled_page FixedEndpoint))))
  = fieldValues
      (component (@dispatch Zod3.formats FixedEndpoint defaultProps (Submit 0)
                            (filled_page FixedEndpoint))).
Proof.
  apply (@X7_no_edits_while_submitting Zod3.formats FixedEndpoint defaultProps
           [Change "name" "Someone Else"; Change "email" EmptyString]).
  - vm_compute. reflexivity.
  - reflexivity.
Defined.

(** X8: with [show] false the component renders nothing, and no visitor
    event changes the page. *)
Theorem X8_hidden_form_inert `{StringFormats} (v : Variant)
        (props : ResearchFormProps) (events : list Event) (p : Page) :
  show props = Some false ->
  forallb from_visitor events = true ->
  render props (component p) = Nothing
  /\ dispatch_all v props events p = p.
Proof.
  intros Hhidden Hvisitors. split; [unfold render; now rewrite Hhidden|].
  unfold dispatch_all. induction events as [|e events IH]; [reflexivity|].
  cbn [forallb] in Hvisitors. apply andb_true_iff in Hvisitors as [He Hrest].
  cbn [fold_left]. rewrite (hidden_event v props e p Hhidden He). now apply IH.
Qed.

Lemma X8_hidden_form_inert_witness :
  @dispatch_all Zod3.formats FixedEndpoint {| show := Some false; submissionUrl := None |}
    (fill_in ++ [Submit 0]) (initialPage FixedEndpoint)
  = initialPage FixedEndpoint.
Proof.
  apply (@X8_hidden_form_inert Zod3.formats FixedEndpoint
           {| show := Some false; submissionUrl := None |} (fill_in ++ [Submit 0])).
  - reflexivity.
  - reflexivity.
Defined.

(** X9: whenever the confirmation card is up, the form behind it is
    already back at its default values with no error, and the button of
    the card brings that form back, enabled, without sending anything
    or showing a toast. *)
Theorem X9_submit_another_gives_fresh_form `{StringFormats} (v : Variant)
        (props : ResearchFormProps) (p : Page) :
  reachable v props p ->
  render props (component p) = Confirmation ->
  render props (component (dispatch v props SubmitAnother p)) = FormView false
  /\ fieldValues (component (dispatch v props SubmitAnother p)) = defaultValues v
  /\ fieldErrors (component (dispatch v props SubmitAnother p)) = ∅
  /\ requests (component (dispatch v props SubmitAnother p)) = requests (component p)
  /\ toasts (component (dispatch v props SubmitAnother p)) = toasts (component p).
Proof.
  intros Hreach Hcard.
  destruct (reachable_invariant v props p Hreach) as (Hreset & _).
  pose proof (proj1 (render_confirmation props _) Hcard) as (Hshown & Hdone).
  destruct (Hreset Hdone) as (Hidle & Hvalues & Herrors).
  unfold dispatch. rewrite Hcard. unfold run, setIsSubmitted.
  cbn [component snd fieldValues fieldErrors requests toasts].
  split; [|easy]. apply render_form_idle. now repeat split.
Qed.

Lemma X9_submit_another_gives_fresh_form_witness :
  fieldValues
    (component
       (@dispatch Zod3.formats UserEndpoint defaultProps SubmitAnother
          (@dispatch_all Zod3.formats UserEndpoint defaultProps
             (fill_in ++ [Submit 0; Settle (Resolved 201)]) (initialPage UserEndpoint))))
  = defaultValues UserEndpoint.
Proof.
  apply (@X9_submit_another_gives_fresh_form Zod3.formats UserEndpoint defaultProps).
  - exists (fill_in ++ [Submit 0; Settle (Resolved 201)]). reflexivity.
  - vm_compute. reflexivity.
Defined.

Section Unguarded.

Context `{StringFormats}.
Variable v : Variant.
Variable props : ResearchFormProps.

Lemma unguarded_keeps_toasts (e : Event) (p : Page) :
  toasts_match_settled v p -> toasts_match_settled v (dispatch_unguarded v props e p).
Proof.
  unfold toasts_match_settled. intros (Hcount & Hsettled & Hkinds).
  destruct e as [now|name value| |reply]; unfold dispatch_unguarded.
  - unfold run. cbn [component settled].
    destruct (decide (validate v (fieldValues (component p)) = ∅)) as [Hvalid|Hbad].
    + rewrite (submit_valid_state v props now _ Hvalid). cbn [toasts requests].
      rewrite length_app. cbn [length]. repeat split; [exact Hcount | lia | exact Hkinds].
    + rewrite (submit_invalid_state v props now _ Hbad). now cbn [toasts requests].
  - unfold run, setValue. now cbn [component settled snd toasts requests].
  - unfold run, setIsSubmitted. now cbn [component settled snd toasts requests].
  - destruct (decide (settled p < length (requests (component p)))) as [Hlt|];
      [|now repeat split].
    cbn [component settled].
    destruct (success_or_failure reply) as [Hfail | (status & -> & Hok)].
    + rewrite (resume_failure v reply _ Hfail). cbn [snd toasts requests].
      rewrite length_app. cbn [length]. repeat split; [lia | lia |].
      apply Forall_app. split; [exact Hkinds|]. constructor; [now right | constructor].
    + rewrite (resume_success v status _ Hok). cbn [snd toasts requests].
      rewrite length_app. cbn [length]. repeat split; [lia | lia |].
      apply Forall_app. split; [exact Hkinds|]. constructor; [now left | constructor].
Qed.

(** Where the view lets an event through, it does what the handler
    does; where it does not, nothing happens. *)
Lemma dispatch_gated (e : Event) (p : Page) :
  dispatch v props e p = p \/ dispatch v props e p = dispatch_unguarded v props e p.
Proof.
  destruct e as [now|name value| |reply]; unfold dispatch, dispatch_unguarded.
  - destruct (render props (component p)) as [| |[|]]; auto.
  - destruct (render props (component p)) as [| |[|]]; auto.
    destruct (decide (name ∈ inputs v)); auto.
  - destruct (render props (component p)) as [| |[|]]; auto.
  - now right.
Qed.

Lemma unguarded_run_keeps_toasts (events : list Event) (p : Page) :
  toasts_match_settled v p ->
  toasts_match_settled v (dispatch_all_unguarded v props events p).
Proof.
  unfold dispatch_all_unguarded. revert p.
  induction events as [|e events IH]; intros p Hp; [exact Hp|].
  cbn [fold_left]. apply IH. now apply unguarded_keeps_toasts.
Qed.

Lemma gated_run_keeps_toasts (events : list Event) (p : Page) :
  toasts_match_settled v p ->
  toasts_match_settled v (dispatch_all v props events p).
Proof.
  unfold dispatch_all. revert p.
  induction events as [|e events IH]; intros p Hp; [exact Hp|].
  cbn [fold_left]. apply IH.
  destruct (dispatch_gated e p) as [-> | ->];
    [exact Hp | now apply unguarded_keeps_toasts].
Qed.

End Unguarded.

(** X10: gate or no gate, each settled request leaves exactly one toast,
    the success or the error toast of the component: after any sequence
    of events handled without the view's gate (two submits in a row then
    both send), and so after any sequence taken through the rendered
    page, the toasts are as many as the settled requests, no more
    requests have settled than were sent, and settling one more request
    adds one such toast and no request. *)
Theorem X10_one_toast_per_settled_request `{StringFormats} (v : Variant)
        (props : ResearchFormProps) (events : list Event) :
  let unguarded := dispatch_all_unguarded v props events (initialPage v) in
  let gated := dispatch_all v props events (initialPage v) in
  (length (toasts (component unguarded)) = settled unguarded
   /\ settled unguarded <= length (requests (component unguarded))
   /\ forall t, t ∈ toasts (component unguarded) -> t = successToast v \/ t = errorToast v)
  /\ (length (toasts (component gated)) = settled gated
      /\ settled gated <= length (requests (component gated))
      /\ forall t, t ∈ toasts (component gated) -> t = successToast v \/ t = errorToast v)
  /\ (forall reply, exists t,
         (t = successToast v \/ t = errorToast v)
         /\ toasts (onSubmit_resume v reply (component unguarded)).2
            = toasts (component unguarded) ++ [t]
         /\ requests (onSubmit_resume v reply (component unguarded)).2
            = requests (component unguarded)).
Proof.
  cbv zeta.
  assert (toasts_match_settled v (initialPage v)) as Hinit.
  { unfold toasts_match_settled. cbn. repeat split; [lia | constructor]. }
  destruct (unguarded_run_keeps_toasts v props events _ Hinit)
    as (Hcount & Hsettled & Hkinds).
  destruct (gated_run_keeps_toasts v props events _ Hinit)
    as (Hcount' & Hsettled' & Hkinds').
  rewrite Forall_forall in Hkinds, Hkinds'.
  split; [now repeat split|]. split; [now repeat split|].
  intros reply. destruct (success_or_failure reply) as [Hfail | (status & -> & Hok)].
  - exists (errorToast v). rewrite (resume_failure v reply _ Hfail).
    cbn [snd toasts requests]. split; [now right | now split].
  - exists (successToast v). rewrite (resume_success v status _ Hok).
    cbn [snd toasts requests]. split; [now left | now split].
Qed.

(** Two submits in a row, then both requests settle: two requests, two
    toasts. *)
Example two_submits_unguarded :
  let after :=
    @dispatch_all_unguarded Zod3.formats FixedEndpoint defaultProps
      (fill_in ++ [Submit 0; Submit 1; Settle (Resolved 201); Settle (Resolved 500)])
      (initialPage FixedEndpoint) in
  length (requests (component after)) = 2
  /\ toasts (component after) = [successToast FixedEndpoint; errorToast FixedEndpoint]
  /\ settled after = 2.
Proof. cbv zeta. repeat split; vm_compute; reflexivity. Qed.

(** X11: every request the page ever sends is a POST with content type
    [application/json] whose body is the payload of data that meet the
    schema.  In the copy with the endpoint prop it goes to that prop, or
    to the placeholder URL when the prop is omitted, whatever the
    visitor typed; in the copy with the endpoint field it goes to the
    placeholder URL or to a value that passed the URL check. *)
Theorem X11_every_request_well_formed `{StringFormats} (v : Variant)
        (props : ResearchFormProps) (p : Page) (r : Request) :
  reachable v props p ->
  r ∈ requests (component p) ->
  method r = "POST"
  /\ headers r = [("Content-Type", "application/json")]
  /\ (exists data now,
         Spec.valid v data = true /\ body r = Js.JSON_stringify (payload v data now))
  /\ match v with
     | FixedEndpoint => url r = default placeholderUrl (submissionUrl props)
     | UserEndpoint => url r = placeholderUrl \/ is_url (url r) = true
     end.
Proof.
  intros Hreach Hin.
  destruct (reachable_invariant v props p Hreach) as (_ & _ & _ & Hsent & _).
  rewrite Forall_forall in Hsent. destruct (Hsent r Hin) as (data & now & -> & Hvalid).
  split; [reflexivity|]. split; [reflexivity|]. split; [now exists data, now|].
  unfold request, endpoint. cbn [url].
  apply valid_parts in Hvalid as (_ & _ & _ & _ & Hurl).
  destruct v.
  - destruct (data !! "submissionUrl") as [[|c rest]|]; [now left | now right | now left].
  - now destruct (submissionUrl props).
Qed.

Lemma X11_every_request_well_formed_witness :
  Forall (fun r => url r = "https://example.org/leads")
         (requests (component
            (@dispatch_all Zod3.formats FixedEndpoint
               {| show := None; submissionUrl := Some "https://example.org/leads" |}
               (fill_in ++ [Submit 0]) (initialPage FixedEndpoint)))).
Proof.
  apply Forall_forall. intros r Hin.
  apply (@X11_every_request_well_formed Zod3.formats FixedEndpoint
           {| show := None; submissionUrl := Some "https://example.org/leads" |}
           _ r (ex_intro _ (fill_in ++ [Submit 0]) eq_refl) Hin).
Defined.

(** X12: after a failed attempt the visitor can submit again without
    retyping: from an idle form with valid values, a submit, its failure
    and a second submit send two requests built from the same data,
    differing only in the time of the call, with the form values
    untouched and one error toast in between. *)
Theorem X12_resubmit_after_failure `{StringFormats} (v : Variant)
        (props : ResearchFormProps) (p : Page) (now later : Z) (reply : FetchReply) :
  render props (component p) = FormView false ->
  validate v (fieldValues (component p)) = ∅ ->
  settled p = length (requests (component p)) ->
  Spec.failure reply ->
  let data := values (zodResolver (researchFormSchema v) (fieldValues (component p))) in
  let q := dispatch_all v props [Submit now; Settle reply; Submit later] p in
  requests (component q)
  = requests (component p) ++ [request v props data now; request v props data later]
  /\ fieldValues (component q) = fieldValues (component p)
  /\ toasts (component q) = toasts (component p) ++ [errorToast v]
  /\ in_flight q = 1.
Proof.
  intros Hform Hvalid Hsettled Hfail. cbv zeta. unfold dispatch_all. cbn [fold_left].
  pose proof (proj1 (render_form_idle props _) Hform) as (Hshown & Hdone & Hidle).
  rewrite (dispatch_submit_valid v props now p Hform Hvalid).
  rewrite dispatch_settle_failure; cbn [component settled requests isSubmitted fieldValues
                                          fieldErrors toasts];
    [|rewrite length_app; cbn [length]; lia | exact Hfail].
  rewrite dispatch_submit_valid; cbn [component settled requests isSubmitted fieldValues
                                        fieldErrors toasts isSubmitting];
    [|apply render_form_idle; now repeat split | exact Hvalid].
  unfold in_flight. cbn [component settled requests].
  rewrite <- app_assoc. cbn [app]. repeat split.
  rewrite !length_app. cbn [length]. lia.
Qed.

Lemma X12_resubmit_after_failure_witness :
  map body
      (requests (component
         (@dispatch_all Zod3.formats FixedEndpoint defaultProps
            [Submit 0; Settle (Resolved 503); Submit 1000] (filled_page FixedEndpoint))))
  = map (fun now => body (request FixedEndpoint defaultProps scenario_values now))
        [0%Z; 1000%Z].
Proof.
  destruct (@X12_resubmit_after_failure Zod3.formats FixedEndpoint defaultProps
              (filled_page FixedEndpoint) 0 1000 (Resolved 503)) as (Hreq & _).
  - vm_compute. reflexivity.
  - vm_compute. reflexivity.
  - vm_compute. reflexivity.
  - cbn. lia.
  - rewrite Hreq. vm_compute. reflexivity.
Defined.

(** X14: in the copy with the endpoint field, a valid submit sends its
    request to the endpoint value exactly as typed when that value is
    not empty, and to the placeholder URL when it is empty or absent;
    the endpoint prop plays no part. *)
Theorem X14_typed_endpoint_used_verbatim `{StringFormats} (props : ResearchFormProps)
        (now : Z) (reply : FetchReply) (st : FormState) :
  validate UserEndpoint (fieldValues st) = ∅ ->
  map url (requests (handleSubmit UserEndpoint
                       (fun data => onSubmit UserEndpoint props data now reply) st).2)
  = map url (requests st)
    ++ [ match fieldValues st !! "submissionUrl" with
         | Some (String c rest) => String c rest
         | _ => placeholderUrl
         end ].
Proof.
  intros Hvalid. rewrite (handleSubmit_valid UserEndpoint _ st Hvalid).
  unfold mbind, Action_bind, setErrors. rewrite onSubmit_requests. cbn [requests].
  rewrite map_app. cbn [map]. unfold request, endpoint. cbn [url].
  pose proof (url_value UserEndpoint (fieldValues st) Hvalid) as Hurl.
  cbv beta iota in Hurl. rewrite Hurl.
  now destruct (fieldValues st !! "submissionUrl") as [[|c rest]|].
Qed.

Lemma X14_typed_endpoint_used_verbatim_witness :
  map url
      (requests
         (@handleSubmit Zod3.formats UserEndpoint
            (fun data => onSubmit UserEndpoint defaultProps data 0 (Resolved 200))
            (component
               (@dispatch Zod3.formats UserEndpoint defaultProps
                  (Change "submissionUrl" "https://example.org/api/research")
                  (filled_page UserEndpoint)))).2)
  = ["https://example.org/api/research"].
Proof.
  rewrite (@X14_typed_endpoint_used_verbatim Zod3.formats defaultProps 0 (Resolved 200)).
  - vm_compute. reflexivity.
  - vm_compute. reflexivity.
Defined.

(** ** What [trim] leaves *)

Lemma last_unit_cons (c d : ascii) (rest : string) :
  last_unit (String c (String d rest)) = last_unit (String d rest).
Proof. reflexivity. Qed.

Lemma trimEnd_last (s : string) :
  match last_unit (trimEnd s) with
  | Some d => is_white_space d = false
  | None => True
  end.
Proof.
  induction s as [|c rest IH]; [exact I|].
  rewrite trimEnd_cons. destruct (trimEnd rest) as [|d kept].
  - destruct (is_white_space c) eqn:W; [exact I | exact W].
  - now rewrite last_unit_cons.
Qed.

Lemma trimEnd_unpadded (s : string) :
  match last_unit s with
  | Some d => is_white_space d = false
  | None => True
  end ->
  trimEnd s = s.
Proof.
  induction s as [|c rest IH]; [reflexivity|].
  rewrite trimEnd_cons. destruct rest as [|d rest'].
  - cbn. now intros ->.
  - rewrite last_unit_cons. intros Hlast. now rewrite (IH Hlast).
Qed.

Lemma trim_not_padded (s : string) : padded (trim s) = false.
Proof.
  unfold trim. destruct (trimStart_shape s) as [-> | (c & rest & -> & W)]; [reflexivity|].
  pose proof (trimEnd_last (String c rest)) as Hlast.
  destruct (trimEnd_keeps_head c rest W) as [kept K]. rewrite K in *.
  unfold padded. rewrite W. cbn [orb].
  now destruct (last_unit (String c kept)) as [d|].
Qed.

Lemma trim_unpadded (s : string) : padded s = false -> trim s = s.
Proof.
  destruct s as [|c rest]; [reflexivity|].
  unfold padded. intros Hpad. apply orb_false_iff in Hpad as [W Hlast].
  unfold trim. rewrite (trimStart_nonspace c rest W).
  apply trimEnd_unpadded. now destruct (last_unit (String c rest)).
Qed.

(** X13: of a valid form the text sent under name, phone, email and
    researchTopic is the typed value trimmed: it has no white space at
    either end, is within the field's bound and, for the three fields
    with a minimum, is not empty; a value typed without white space
    around it is sent exactly as typed. *)
Theorem X13_sent_text_is_trimmed `{StringFormats} (v : Variant)
        (formValues : gmap string string) (key : string) (s : string) :
  validate v formValues = ∅ ->
  key ∈ Spec.required ->
  formValues !! key = Some s ->
  values (zodResolver (researchFormSchema v) formValues) !! key = Some (trim s)
  /\ padded (trim s) = false
  /\ String.length (trim s) <= Spec.max_length key
  /\ (key <> "email" -> 1 <= String.length (trim s))
  /\ (padded s = false -> trim s = s).
Proof.
  intros Hvalid Hreq Hs.
  pose proof (proj1 (validate_empty_iff v formValues) Hvalid) as Hok.
  apply valid_parts in Hok as (Hn & Hp & He & Ht & _).
  destruct (valid_data v formValues Hvalid)
    as (name & phone & email & topic & En & Ep & Ee & Et & Dn & Dp & De & Dt).
  assert (forall k, Spec.text_ok k (Some s) = true ->
                    String.length (trim s) <= Spec.max_length k
                    /\ 1 <= String.length (trim s)) as Htext.
  { intros k Hk. unfold Spec.text_ok in Hk. apply andb_true_iff in Hk as [Hlo Hhi].
    apply Nat.leb_le in Hlo, Hhi. lia. }
  split; [|split; [apply trim_not_padded | split; [|split; [|apply trim_unpadded]]]];
    unfold Spec.required in Hreq;
    repeat (apply elem_of_cons in Hreq as [->|Hreq]); try (now apply elem_of_nil in Hreq).
  - rewrite Hs in En. injection En as <-. exact Dn.
  - rewrite Hs in Ep. injection Ep as <-. exact Dp.
  - rewrite Hs in Ee. injection Ee as <-. exact De.
  - rewrite Hs in Et. injection Et as <-. exact Dt.
  - rewrite Hs in Hn. exact (proj1 (Htext _ Hn)).
  - rewrite Hs in Hp. exact (proj1 (Htext _ Hp)).
  - rewrite Hs in He. unfold Spec.email_ok in He. apply andb_true_iff in He as [_ Hhi].
    now apply Nat.leb_le in Hhi.
  - rewrite Hs in Ht. exact (proj1 (Htext _ Ht)).
  - intros _. rewrite Hs in Hn. exact (proj2 (Htext _ Hn)).
  - intros _. rewrite Hs in Hp. exact (proj2 (Htext _ Hp)).
  - intros Hne. now contradiction Hne.
  - intros _. rewrite Hs in Ht. exact (proj2 (Htext _ Ht)).
Qed.

Lemma X13_sent_text_is_trimmed_witness :
  values (@zodResolver Zod3.formats (researchFormSchema FixedEndpoint)
            (<["researchTopic" := "  AI ethics, in practice "]> scenario_values))
  !! "researchTopic" = Some "AI ethics, in practice".
Proof.
  apply (@X13_sent_text_is_trimmed Zod3.formats FixedEndpoint
           (<["researchTopic" := "  AI ethics, in practice "]> scenario_values)
           "researchTopic" "  AI ethics, in practice ").
  - vm_compute. reflexivity.
  - apply (bool_decide_unpack _). vm_compute. reflexivity.
  - vm_compute. reflexivity.
Defined.

(** ** The body reads back *)

Example json_read_samples :
  JsonRead.JSON_parse
    (Js.JSON_stringify [("name", Some ("Jane " +:+ dquote +:+ "JD" +:+ dquote +:+ " Doe\"));
                        ("phone", None);
                        ("email", Some EmptyString)])
  = Some [("name", "Jane " +:+ dquote +:+ "JD" +:+ dquote +:+ " Doe\"); ("email", EmptyString)].
Proof. vm_compute. reflexivity. Qed.

(** Reading what [QuoteJSONString] wrote for one code unit gives the
    code unit back; checked on all 256. *)
Lemma string_body_quote_char (c : ascii) (tail : string) :
  JsonRead.string_body (Js.quote_char c +:+ tail)
  = JsonRead.prepend (Some c) (JsonRead.string_body tail).
Proof.
  destruct c as [[] [] [] [] [] [] [] []]; reflexivity.
Qed.

Lemma string_body_quote_chars (s tail : string) :
  JsonRead.string_body (Js.quote_chars s +:+ dquote +:+ tail) = Some (s, tail).
Proof.
  induction s as [|c s IH]; [reflexivity|].
  cbn [Js.quote_chars]. rewrite string_app_assoc, string_body_quote_char, IH.
  reflexivity.
Qed.

Lemma string_literal_quote (s tail : string) :
  JsonRead.string_literal (Js.QuoteJSONString s +:+ tail) = Some (s, tail).
Proof.
  unfold Js.QuoteJSONString. rewrite !string_app_assoc.
  change (dquote +:+ Js.quote_chars s +:+ dquote +:+ tail)
    with (String "034"%char (Js.quote_chars s +:+ dquote +:+ tail)).
  cbn [JsonRead.string_literal]. change (JsonRead.is_unit 34 "034"%char) with true.
  cbv iota. apply string_body_quote_chars.
Qed.

Lemma members_defined (props : list (string * option string)) :
  Js.members props
  = map (fun member => Js.QuoteJSONString member.1 +:+ ":" +:+ Js.QuoteJSONString member.2)
        (JsonRead.defined props).
Proof.
  induction props as [|[key [value|]] rest IH]; [reflexivity| |exact IH].
  cbn [Js.members JsonRead.defined map fst snd]. now rewrite IH.
Qed.

Lemma members_from_S (fuel : nat) (s : string) :
  JsonRead.members_from (S fuel) s
  = match JsonRead.string_literal s with
    | Some (key, String colon after) =>
        if JsonRead.is_unit 58 colon then
          match JsonRead.string_literal after with
          | Some (value, String sep rest) =>
              if JsonRead.is_unit 125 sep then Some ([(key, value)], rest)
              else if JsonRead.is_unit 44 sep then
                     match JsonRead.members_from fuel rest with
                     | Some (more, tail) => Some ((key, value) :: more, tail)
                     | None => None
                     end
                   else None
          | _ => None
          end
        else None
    | _ => None
    end.
Proof. reflexivity. Qed.

(** One member and the separator after it, read back. *)
Lemma member_read (fuel : nat) (key value : string) (sep : ascii) (rest : string) :
  JsonRead.members_from (S fuel)
    (Js.QuoteJSONString key +:+ ":" +:+ Js.QuoteJSONString value +:+ String sep rest)
  = if JsonRead.is_unit 125 sep then Some ([(key, value)], rest)
    else if JsonRead.is_unit 44 sep then
           match JsonRead.members_from fuel rest with
           | Some (more, tail) => Some ((key, value) :: more, tail)
           | None => None
           end
         else None.
Proof.
  rewrite members_from_S, string_literal_quote.
  rewrite append_cons, append_nil. change (JsonRead.is_unit 58 ":"%char) with true.
  cbv iota. now rewrite string_literal_quote.
Qed.

Lemma members_read (members : list (string * string)) :
  forall (fuel : nat) (tail : string),
    members <> [] ->
    length members <= fuel ->
    JsonRead.members_from fuel
      (Js.join ","
         (map (fun member => Js.QuoteJSONString member.1 +:+ ":" +:+ Js.QuoteJSONString member.2)
              members)
       +:+ String "}" tail)
    = Some (members, tail).
Proof.
  induction members as [|[key value] more IH]; intros fuel tail Hsome Hfuel;
    [contradiction|].
  destruct fuel as [|fuel]; [cbn in Hfuel; lia|].
  destruct more as [|next more].
  - cbn [map Js.join fst snd]. rewrite !string_app_assoc. now rewrite member_read.
  - change (Js.join "," (map _ ((key, value) :: next :: more)))
      with ((Js.QuoteJSONString key +:+ ":" +:+ Js.QuoteJSONString value)
            +:+ "," +:+ Js.join ","
                  (map (fun member =>
                          Js.QuoteJSONString member.1 +:+ ":" +:+ Js.QuoteJSONString member.2)
                       (next :: more))).
    rewrite !string_app_assoc.
    rewrite (append_cons ","%char EmptyString), append_nil.
    rewrite member_read. change (JsonRead.is_unit 125 ","%char) with false.
    change (JsonRead.is_unit 44 ","%char) with true. cbv iota.
    rewrite IH; [reflexivity | discriminate | cbn [length] in *; lia].
Qed.

Lemma quoted_length (s : string) : 1 <= String.length (Js.QuoteJSONString s).
Proof. unfold Js.QuoteJSONString, dquote. rewrite append_cons. cbn [String.length]. lia. Qed.

Lemma joined_length (members : list (string * string)) :
  length members
  <= String.length
       (Js.join ","
          (map (fun member => Js.QuoteJSONString member.1 +:+ ":" +:+ Js.QuoteJSONString member.2)
               members)).
Proof.
  induction members as [|[key value] more IH]; [cbn; lia|].
  pose proof (quoted_length key) as Hkey.
  destruct more as [|next more].
  - cbn [map Js.join fst snd length]. rewrite !string_app_length. lia.
  - change (Js.join "," (map _ ((key, value) :: next :: more)))
      with ((Js.QuoteJSONString key +:+ ":" +:+ Js.QuoteJSONString value)
            +:+ "," +:+ Js.join ","
                  (map (fun member =>
                          Js.QuoteJSONString member.1 +:+ ":" +:+ Js.QuoteJSONString member.2)
                       (next :: more))).
    rewrite !string_app_length. cbn [length] in *. lia.
Qed.

(** [JSON.stringify] of an object of strings reads back as the
    properties that hold a string, in order. *)
Lemma stringify_reads_back (props : list (string * option string)) :
  JsonRead.JSON_parse (Js.JSON_stringify props) = Some (JsonRead.defined props).
Proof.
  unfold Js.JSON_stringify. rewrite members_defined.
  destruct (JsonRead.defined props) as [|[key value] more] eqn:E; [reflexivity|].
  rewrite append_cons, append_nil.
  set (text := Js.join "," (map _ ((key, value) :: more))).
  assert (exists rest, text = String "034"%char rest) as [rest Hquote].
  { subst text. destruct more as [|next more]; cbn [map Js.join fst snd];
      unfold Js.QuoteJSONString, dquote; rewrite !string_app_assoc, !append_cons;
      eexists; reflexivity. }
  pose proof (joined_length ((key, value) :: more)) as Hlen. fold text in Hlen.
  pose proof (members_read ((key, value) :: more) (String.length (text +:+ "}"))
                EmptyString ltac:(discriminate)) as Hread.
  fold text in Hread. rewrite string_app_length in Hread.
  specialize (Hread ltac:(lia)).
  unfold JsonRead.JSON_parse. change (JsonRead.is_unit 123 "{"%char) with true. cbv iota.
  replace (String.eqb (text +:+ "}") "}") with false
    by (rewrite Hquote, append_cons; reflexivity).
  rewrite string_app_length. now rewrite Hread.
Qed.

(** X15: the body of every request reads back, as JSON, to the members
    of the payload that hold a value, with exactly the text they held:
    quotation marks, backslashes and control characters in what the
    visitor typed are escaped and cannot change the shape of the
    body. *)
Theorem X15_body_reads_back (v : Variant) (props : ResearchFormProps)
        (data : gmap string string) (now : Z) :
  JsonRead.JSON_parse (body (request v props data now))
  = Some (JsonRead.defined (payload v data now))
  /\ (forall name phone email topic,
         data !! "name" = Some name -> data !! "phone" = Some phone ->
         data !! "email" = Some email -> data !! "researchTopic" = Some topic ->
         JsonRead.JSON_parse (body (request v props data now))
         = Some [ ("name", name);
                  (match v with UserEndpoint => "phone" | FixedEndpoint => "contact" end, phone);
                  ("email", email);
                  ("researchTopic", topic);
                  ("timestamp", Js.toISOString now) ]).
Proof.
  unfold request. cbn [body]. split; [apply stringify_reads_back|].
  intros name phone email topic Hn Hp He Ht.
  rewrite stringify_reads_back. unfold payload. now rewrite Hn, Hp, He, Ht.
Qed.

Lemma X15_body_reads_back_witness :
  JsonRead.JSON_parse
    (body (request FixedEndpoint defaultProps
             (<["name" := "Jane " +:+ dquote +:+ "JD" +:+ dquote +:+ " Doe"]> scenario_values) 0))
  = Some [ ("name", "Jane " +:+ dquote +:+ "JD" +:+ dquote +:+ " Doe");
           ("contact", "555-1234");
           ("email", "jane@x.edu");
           ("researchTopic", "AI ethics");
           ("timestamp", "1970-01-01T00:00:00.000Z") ].
Proof.
  rewrite (proj2 (X15_body_reads_back FixedEndpoint defaultProps
                    (<["name" := "Jane " +:+ dquote +:+ "JD" +:+ dquote +:+ " Doe"]>
                       scenario_values) 0)
                 ("Jane " +:+ dquote +:+ "JD" +:+ dquote +:+ " Doe")
                 "555-1234" "jane@x.edu" "AI ethics");
    vm_compute; reflexivity.
Defined.

(** ** The form always holds its fields *)

Section FieldsKept.

Context `{StringFormats}.
Variable v : Variant.
Variable props : ResearchFormProps.

Lemma defaults_hold_inputs (key : string) :
  is_Some (defaultValues v !! key) <-> key ∈ inputs v.
Proof.
  rewrite <- elem_of_dom. unfold inputs.
  destruct v; cbn [defaultValues researchFormSchema map fst app];
    rewrite !dom_insert_L, dom_singleton_L, !elem_of_union, !elem_of_singleton, !elem_of_cons,
      elem_of_nil; split; intros Hyp; intuition auto.
Qed.

Lemma insert_holds_inputs (values : gmap string string) (name value : string) :
  name ∈ inputs v ->
  (forall key, is_Some (values !! key) <-> key ∈ inputs v) ->
  forall key, is_Some (<[name := value]> values !! key) <-> key ∈ inputs v.
Proof.
  intros Hname Hall key. destruct (decide (name = key)) as [<-|Hne].
  - rewrite lookup_insert_eq. split; [now intros _ | now eexists].
  - rewrite lookup_insert_ne by exact Hne. apply Hall.
Qed.

Lemma dispatch_keeps_fields (e : Event) (p : Page) :
  (forall key, is_Some (fieldValues (component p) !! key) <-> key ∈ inputs v) ->
  forall key,
    is_Some (fieldValues (component (dispatch v props e p)) !! key) <-> key ∈ inputs v.
Proof.
  intros Hall. destruct e as [now|name value| |reply]; unfold dispatch.
  - destruct (render props (component p)) as [| |[|]]; try exact Hall.
    unfold run. cbn [component].
    destruct (decide (validate v (fieldValues (component p)) = ∅)) as [Hvalid|Hbad].
    + now rewrite (submit_valid_state v props now _ Hvalid).
    + now rewrite (submit_invalid_state v props now _ Hbad).
  - destruct (render props (component p)) as [| |[|]]; try exact Hall.
    destruct (decide (name ∈ inputs v)) as [Hname|]; [|exact Hall].
    unfold run, setValue. cbn [component snd fieldValues].
    now apply insert_holds_inputs.
  - destruct (render props (component p)) as [| |[|]]; exact Hall.
  - destruct (decide (settled p < length (requests (component p)))); [|exact Hall].
    cbn [component].
    destruct (success_or_failure reply) as [Hfail | (status & -> & Hok)].
    + now rewrite (resume_failure v reply _ Hfail).
    + rewrite (resume_success v status _ Hok). cbn [snd fieldValues].
      apply defaults_hold_inputs.
Qed.

End FieldsKept.

(** X16: on every page the events produce, the form holds a string under
    each field of its schema and nothing under any other key: a value is
    never undefined, and in the copy without the endpoint field the
    visitor cannot bring a [submissionUrl] into the form. *)
Theorem X16_form_holds_exactly_its_fields `{StringFormats} (v : Variant)
        (props : ResearchFormProps) (p : Page) (key : string) :
  reachable v props p ->
  (is_Some (fieldValues (component p) !! key) <-> key ∈ inputs v)
  /\ (key ∈ inputs v -> validate v (fieldValues (component p)) !! key <> Some "Required").
Proof.
  intros [events ->].
  assert (forall key,
             is_Some (fieldValues (component (dispatch_all v props events (initialPage v)))
                      !! key) <-> key ∈ inputs v) as Hall.
  { unfold dispatch_all.
    assert (forall key, is_Some (fieldValues (component (initialPage v)) !! key)
                        <-> key ∈ inputs v) as Hinit
        by (intros k; apply defaults_hold_inputs).
    revert Hinit. generalize (initialPage v).
    induction events as [|e events IH]; intros p Hp; [exact Hp|].
    cbn [fold_left]. apply IH. intros k. now apply dispatch_keeps_fields. }
  split; [apply Hall|]. intros Hin.
  destruct (proj2 (Hall key) Hin) as [s Hs].
  unfold inputs in Hin.
  destruct v; cbn [researchFormSchema map fst app] in Hin;
    repeat (apply elem_of_cons in Hin as [->|Hin]); try (now apply elem_of_nil in Hin).
  all: try (rewrite validate_name, field_error_text, Hs;
            destruct (_ <? 1)%nat; [discriminate|]; destruct (_ <? _)%nat; discriminate).
  all: try (rewrite validate_phone, field_error_text, Hs;
            destruct (_ <? 1)%nat; [discriminate|]; destruct (_ <? _)%nat; discriminate).
  all: try (rewrite validate_researchTopic, field_error_text, Hs;
            destruct (_ <? 1)%nat; [discriminate|]; destruct (_ <? _)%nat; discriminate).
  all: try (rewrite validate_email, field_error_email, Hs;
            destruct (is_email _); [|discriminate]; destruct (_ <? _)%nat; discriminate).
  rewrite validate_submissionUrl, field_error_url, Hs.
  destruct s; [discriminate|]. destruct (is_url _); discriminate.
Qed.

Lemma X16_form_holds_exactly_its_fields_witness :
  (is_Some (fieldValues
              (component
                 (@dispatch_all Zod3.formats FixedEndpoint defaultProps
                    [Change "submissionUrl" "https://elsewhere.example"; Change "name" "Jane"]
                    (initialPage FixedEndpoint))) !! "submissionUrl")
   <-> "submissionUrl" ∈ inputs FixedEndpoint).
Proof.
  apply (@X16_form_holds_exactly_its_fields Zod3.formats FixedEndpoint defaultProps).
  exists [Change "submissionUrl" "https://elsewhere.example"; Change "name" "Jane"].
  reflexivity.
Defined.
